(** * Coordinate detection, reprojection and GeoJSON batch mapping

    A shallow embedding of the coordinate module of the SONAGED portal
    (the second document of [src/components/map/MapView.tsx]):
    [detectCoordinateSystem], [convertCoordinates], [extractCoordinates]
    and [uploadGeoJSONWithProj4].

    JavaScript numbers are IEEE binary64 values, modelled by Rocq's
    primitive floats; JSON documents by the inductive [jsval]; exceptions
    by the [completion] type, also those of the conversions of objects
    to numbers and strings; the statistics object mutated by the map
    callback by a state-and-exception monad. *)

From Stdlib Require Import ZArith String Ascii List Floats Uint63 DecimalString DecimalN Lia.
From stdpp Require Import gmap strings.

#[local] Set Warnings "-inexact-float,-register-all".
#[local] Open Scope Z_scope.

(* ===================================================================== *)
(** * The JavaScript fragment used by the module *)
(* ===================================================================== *)

Module JS.

(** A thrown [Error]: only its [message] is ever read by the module. *)
Record exception : Type := Error { message : string }.

(** The outcome of evaluating an expression: a value, or a throw. *)
Inductive completion (A : Type) : Type :=
| Normal (a : A)
| Throw (e : exception).
Arguments Normal {A} a.
Arguments Throw {A} e.

Definition bind {A B : Type} (c : completion A) (k : A -> completion B) : completion B :=
  match c with
  | Normal a => k a
  | Throw e => Throw e
  end.

(** [try { body } catch (error) { handler }] *)
Definition try_catch {A : Type} (body : completion A) (handler : exception -> completion A)
  : completion A :=
  match body with
  | Normal a => Normal a
  | Throw e => handler e
  end.

(** Values that reach the module: a parsed JSON document, [undefined]
    (the value of an absent property), and a built-in function, given by
    its name: no JSON document holds one, but a method name read on an
    array yields one ([properties.shift] is [Array.prototype.shift] when
    [properties] is an array). An object is its list of own properties,
    first occurrence of a key first. *)
Inductive jsval : Type :=
| VUndefined
| VNull
| VBool (b : bool)
| VNumber (n : float)
| VString (s : string)
| VArray (elems : list jsval)
| VObject (props : list (string * jsval))
| VFunction (name : string).

(** ToBoolean: [undefined], [null], [false], [0], [-0], [NaN] and the
    empty string are falsy. *)
Definition number_truthy (n : float) : bool :=
  negb (PrimFloat.eqb n 0%float) && negb (PrimFloat.is_nan n).

Definition truthy (v : jsval) : bool :=
  match v with
  | VUndefined | VNull => false
  | VBool b => b
  | VNumber n => number_truthy n
  | VString s => negb (String.eqb s EmptyString)
  | VArray _ | VObject _ | VFunction _ => true
  end.

Definition nullish (v : jsval) : bool :=
  match v with
  | VUndefined | VNull => true
  | _ => false
  end.

Definition Array_isArray (v : jsval) : bool :=
  match v with
  | VArray _ => true
  | _ => false
  end.

(** [typeof v === 'object'] ([typeof null] is ['object'] too, and
    [typeof] of a function is ['function']). *)
Definition typeof_object (v : jsval) : bool :=
  match v with
  | VNull | VArray _ | VObject _ => true
  | _ => false
  end.

Fixpoint lookup_prop (k : string) (props : list (string * jsval)) : jsval :=
  match props with
  | [] => VUndefined
  | (k', v) :: rest => if String.eqb k k' then v else lookup_prop k rest
  end.

(** [v.k] on a value that is neither [null] nor [undefined], for the
    identifiers [k] the module reads ([geometry], [coordinates], [type],
    [features], [properties] and the property aliases). An object answers
    with its own property. Of these identifiers, [shift] is the only one
    that names a built-in property of arrays (the method
    [Array.prototype.shift]) and [name] the only one that names a
    property of functions (the name of the function); none names a
    property of [Object.prototype], nor of strings, numbers or
    booleans. *)
Definition member (v : jsval) (k : string) : jsval :=
  match v with
  | VObject props => lookup_prop k props
  | VArray _ => if String.eqb k "shift" then VFunction "shift" else VUndefined
  | VFunction f => if String.eqb k "name" then VString f else VUndefined
  | _ => VUndefined
  end.

(** [v.k]: reading a property of [null] or [undefined] throws a
    TypeError. *)
Definition getProp (v : jsval) (k : string) : completion jsval :=
  match v with
  | VUndefined | VNull =>
      Throw (Error ("Cannot read properties of null or undefined (reading '" +:+ k +:+ "')"))
  | _ => Normal (member v k)
  end.

(** [v[0]]: the first element of an array, the first character of a
    string, the property named 0 of an object. *)
Definition index0 (v : jsval) : completion jsval :=
  match v with
  | VUndefined | VNull =>
      Throw (Error "Cannot read properties of null or undefined (reading '0')")
  | VArray elems => Normal (hd VUndefined elems)
  | VString (String c _) => Normal (VString (String c EmptyString))
  | VObject props => Normal (lookup_prop "0" props)
  | _ => Normal VUndefined
  end.

(** [a || b] on possibly throwing operands: [b] is the result when [a]
    is falsy. *)
Definition js_or (a b : completion jsval) : completion jsval :=
  bind a (fun v => if truthy v then Normal v else b).

(** ** Numbers and their decimal renderings *)

Definition decimal (n : N) : string := NilZero.string_of_uint (N.to_uint n).

Fixpoint zeros (k : nat) : string :=
  match k with
  | O => EmptyString
  | S k' => String "0" (zeros k')
  end.

(** The integer [n] for which [n / 10^f] is closest to [m * 2^e], the
    larger one on a tie (step 10 of Number.prototype.toFixed). *)
Definition scaled_round (f : nat) (m : positive) (e : Z) : Z :=
  let p := Z.pos m * 10 ^ Z.of_nat f in
  if 0 <=? e then p * 2 ^ e
  else (2 * p + 2 ^ (- e)) / (2 * 2 ^ (- e)).

(** The digits of [n] with a decimal point before the last [f] of them,
    padded with zeros on the left to [f + 1] digits. *)
Definition fixed_digits (f : nat) (n : Z) : string :=
  let m := decimal (Z.to_N n) in
  let k := String.length m in
  let m := if (k <=? f)%nat then zeros (f + 1 - k) +:+ m else m in
  let k := String.length m in
  if (f =? 0)%nat then m
  else substring 0 (k - f) m +:+ "." +:+ substring (k - f) f m.

(** [10^21 <= m * 2^e] *)
Definition at_least_1e21 (m : positive) (e : Z) : bool :=
  if 0 <=? e then 10 ^ 21 <=? Z.pos m * 2 ^ e
  else 10 ^ 21 * 2 ^ (- e) <=? Z.pos m.

(** What the module takes from its host: the proj4 library, the
    renderings of numbers and functions as text, the numbers denoted by
    the strings outside the plain decimal format, and the calls of
    built-in functions. *)
Class Runtime : Type := {
  (** proj4's transformation between two parameter strings: a coordinate
      pair, or a thrown error. *)
  proj4_transform : string -> string -> float * float -> completion (float * float);
  (** Number::toString for finite values of magnitude at least 1e21
      (exponent notation). *)
  exponent_notation : float -> string;
  (** ToNumber for the strings outside the plain decimal format. *)
  ToNumber_other : jsval -> float;
  (** Number::toString for the positive finite numbers that are not
      integers below 2^53: the shortest decimal that reads back as the
      number. *)
  shortest_decimal : float -> string;
  (** Function.prototype.toString of a built-in function, by its name. *)
  function_text : string -> string;
  (** The call of a built-in function, by its name, as a method of a
      value: what it returns or throws. *)
  call_method : string -> jsval -> completion jsval
}.

Section Numbers.
Context {rt : Runtime}.

(** ** Conversion of objects to primitive values *)

Definition is_primitive (v : jsval) : bool :=
  match v with
  | VArray _ | VObject _ | VFunction _ => false
  | _ => true
  end.

Definition has_own (k : string) (props : list (string * jsval)) : bool :=
  existsb (fun p => String.eqb k (fst p)) props.

(** Number::toString, the text of a number in a template literal or in
    the join of an array. An integer of magnitude below 2^53 is written
    with all its digits. *)
Definition Number_toString (x : float) : string :=
  match Prim2SF x with
  | S754_nan => "NaN"
  | S754_infinity s => if s then "-Infinity" else "Infinity"
  | S754_zero _ => "0"
  | S754_finite s m e =>
      (if s then "-" else EmptyString) +:+
      (if (e <=? 0) && (Z.pos m mod 2 ^ (- e) =? 0)
       then decimal (Z.to_N (Z.pos m / 2 ^ (- e)))
       else shortest_decimal (PrimFloat.abs x))
  end.

(** ToString of a primitive value. *)
Definition primitive_text (v : jsval) : string :=
  match v with
  | VUndefined => "undefined"
  | VNull => "null"
  | VBool b => if b then "true" else "false"
  | VNumber n => Number_toString n
  | VString s => s
  | VArray _ | VObject _ | VFunction _ => EmptyString
  end.

(** The TypeError of OrdinaryToPrimitive when neither method yields a
    primitive value. *)
Definition cannot_convert : exception :=
  Error "Cannot convert object to primitive value".

(** One step of OrdinaryToPrimitive on the plain object [v] with own
    properties [props]: the method named [k] is the own property when
    there is one, and then it is called only if it is a function; else
    it is the method of [Object.prototype], whose answer on a plain
    object is [inherited] when that is a primitive value. The step yields
    a primitive value or nothing. *)
Definition try_method (v : jsval) (props : list (string * jsval)) (k : string)
    (inherited : option jsval) : completion (option jsval) :=
  if has_own k props then
    match lookup_prop k props with
    | VFunction f =>
        bind (call_method f v) (fun r => Normal (if is_primitive r then Some r else None))
    | _ => Normal None
    end
  else Normal inherited.

(** OrdinaryToPrimitive on a plain object: [toString] then [valueOf]
    when a string is preferred, [valueOf] then [toString] when a number
    is. [Object.prototype.toString] answers ["[object Object]"];
    [Object.prototype.valueOf] answers the object itself, which is not a
    primitive value. *)
Definition OrdinaryToPrimitive (v : jsval) (props : list (string * jsval))
    (prefer_string : bool) : completion jsval :=
  let toString := try_method v props "toString" (Some (VString "[object Object]")) in
  let valueOf := try_method v props "valueOf" None in
  bind (if prefer_string then toString else valueOf) (fun first =>
    match first with
    | Some p => Normal p
    | None =>
        bind (if prefer_string then valueOf else toString) (fun second =>
          match second with
          | Some p => Normal p
          | None => Throw cannot_convert
          end)
    end).

(** ToString, as a template literal applies it. An array is joined with
    commas ([Array.prototype.toString] calls [join], for which [null] and
    [undefined] elements are empty); a plain object goes through
    OrdinaryToPrimitive; a built-in function is its source text. *)
Fixpoint ToString (v : jsval) : completion string :=
  match v with
  | VArray elems =>
      (fix join (elems : list jsval) : completion string :=
         match elems with
         | [] => Normal EmptyString
         | e :: rest =>
             bind (if nullish e then Normal EmptyString else ToString e) (fun s =>
               match rest with
               | [] => Normal s
               | _ :: _ => bind (join rest) (fun t => Normal (s +:+ "," +:+ t))
               end)
         end) elems
  | VObject props =>
      bind (OrdinaryToPrimitive v props true) (fun p => Normal (primitive_text p))
  | VFunction f => Normal (function_text f)
  | _ => Normal (primitive_text v)
  end.

(** ToPrimitive with a number preferred. For an array and for a function
    [valueOf] is inherited from [Object.prototype] and answers the value
    itself, so that [toString] decides. *)
Definition ToPrimitive (v : jsval) : completion jsval :=
  match v with
  | VObject props => OrdinaryToPrimitive v props false
  | VArray _ => bind (ToString v) (fun s => Normal (VString s))
  | VFunction f => Normal (VString (function_text f))
  | _ => Normal v
  end.

(** ** [toFixed] and [Number] *)

(** [x.toFixed(f)] for [0 <= f <= 100]. *)
Definition toFixed (f : nat) (x : float) : string :=
  match Prim2SF x with
  | S754_nan => "NaN"
  | S754_infinity false => "Infinity"
  | S754_infinity true => "-Infinity"
  | S754_zero _ => fixed_digits f 0
  | S754_finite s m e =>
      (if s then "-" else EmptyString) +:+
      (if at_least_1e21 m e then exponent_notation (PrimFloat.abs x)
       else fixed_digits f (scaled_round f m e))
  end.

(** ToNumber on strings. A plain decimal numeral (an optional minus
    sign, digits, and possibly a point followed by digits) with an
    integer of digits below 2^53 and at most 15 decimals denotes the
    quotient of two exactly representable numbers, so that the correctly
    rounded division is the nearest binary64 value; this is the case of
    every string that [toFixed 6] yields for a magnitude below 10^9. *)
Definition digit_of (c : ascii) : option N :=
  let n := N_of_ascii c in
  if ((48 <=? n) && (n <=? 57))%N then Some (n - 48)%N else None.

Fixpoint read_digits (s : string) (acc : N) (count : nat) : N * nat * string :=
  match s with
  | String c rest =>
      match digit_of c with
      | Some d => read_digits rest (10 * acc + d)%N (S count)
      | None => (acc, count, s)
      end
  | EmptyString => (acc, count, s)
  end.

(** The number that a string of digits denotes, continuing [acc]. *)
Fixpoint digits_value (s : string) (acc : N) : N :=
  match s with
  | String c rest =>
      match digit_of c with
      | Some d => digits_value rest (10 * acc + d)%N
      | None => acc
      end
  | EmptyString => acc
  end.

Fixpoint all_digits (s : string) : bool :=
  match s with
  | String c rest =>
      match digit_of c with
      | Some _ => all_digits rest
      | None => false
      end
  | EmptyString => true
  end.

Definition plain_decimal (s : string) : option (bool * N * nat) :=
  let (neg, body) :=
    match s with
    | String "-" r => (true, r)
    | _ => (false, s)
    end in
  let '(i, ci, rest) := read_digits body 0 0 in
  if (ci =? 0)%nat then None
  else
    match rest with
    | EmptyString => Some (neg, i, O)
    | String "." frac =>
        let '(n, cf, rest') := read_digits frac i 0 in
        match rest' with
        | EmptyString => if (cf =? 0)%nat then None else Some (neg, n, cf)
        | _ => None
        end
    | _ => None
    end.

Definition float_of_N (n : N) : float := PrimFloat.of_uint63 (Uint63.of_Z (Z.of_N n)).

Definition StringToNumber (s : string) : float :=
  match plain_decimal s with
  | Some (neg, n, d) =>
      if ((n <? 2 ^ 53)%N && (d <=? 15)%nat)%bool then
        let q := (float_of_N n / float_of_N (10 ^ N.of_nat d))%float in
        if neg then (- q)%float else q
      else ToNumber_other (VString s)
  | None => ToNumber_other (VString s)
  end.

(** ToNumber of a primitive value. *)
Definition ToNumber (p : jsval) : float :=
  match p with
  | VUndefined => nan
  | VNull => 0%float
  | VBool b => if b then 1%float else 0%float
  | VNumber n => n
  | VString s => StringToNumber s
  | VArray _ | VObject _ | VFunction _ => nan
  end.

(** [Number(v)]: the value is first converted to a primitive value,
    which throws a TypeError for an object that has no usable [toString]
    and [valueOf]. *)
Definition Number (v : jsval) : completion float :=
  bind (ToPrimitive v) (fun p => Normal (ToNumber p)).

End Numbers.

End JS.

Import JS.

Notation "'let*' x := c 'in' k" := (bind c (fun x => k))
  (at level 10, x name, c at level 100, k at level 200).
Infix "|||" := js_or (at level 50, left associativity).

(* ===================================================================== *)
(** * Detection and reprojection *)
(* ===================================================================== *)

(** The catalogue registered by [proj4.defs] when the module loads. *)
Definition proj4_defs (name : string) : option string :=
  if String.eqb name "EPSG:4326" then Some "+proj=longlat +datum=WGS84 +no_defs"
  else if String.eqb name "EPSG:32628" then
    Some "+proj=utm +zone=28 +datum=WGS84 +units=m +no_defs"
  else if String.eqb name "EPSG:32627" then
    Some "+proj=utm +zone=27 +datum=WGS84 +units=m +no_defs"
  else if String.eqb name "EPSG:2147" then
    Some "+proj=lcc +lat_1=13.5 +lat_2=15.5 +lat_0=14.5 +lon_0=-14 +x_0=400000 +y_0=300000 +ellps=clrk80 +towgs84=-263,6,431,0,0,0,0 +units=m +no_defs"
  else None.

(** [proj4(fromProj, toProj, coord)]: both names are resolved in the
    catalogue; an unknown name is thrown back. *)
Definition proj4 {rt : Runtime} (fromProj toProj : string) (coord : float * float)
  : completion (float * float) :=
  match proj4_defs fromProj, proj4_defs toProj with
  | Some src, Some dst => proj4_transform src dst coord
  | None, _ => Throw (Error fromProj)
  | _, None => Throw (Error toProj)
  end.

#[local] Open Scope float_scope.

(** [lo <= v && v <= hi] on numbers; the source writes it
    [v >= lo && v <= hi]. *)
Definition between (lo hi v : float) : bool := (lo <=? v) && (v <=? hi).

(** The same test as a proposition: [v] lies in the closed interval
    from [lo] to [hi], in the order of binary64 numbers. *)
Definition inside (lo hi v : float) : Prop := (lo <=? v) = true /\ (v <=? hi) = true.

(** The four corners of a rectangle of coordinates. *)
Definition corners (xlo xhi ylo yhi : float) : list (float * float) :=
  [(xlo, ylo); (xlo, yhi); (xhi, ylo); (xhi, yhi)].

(** The warning logged on the fallback path is not part of the result
    and is left out. *)
Definition detectCoordinateSystem (x y : float) : string :=
  if between (-180) 180 x && between (-90) 90 y then "EPSG:4326"
  else if between 200000 800000 x && between 1400000 1900000 y then "EPSG:32628"
  else if between 400000 900000 x && between 1400000 1900000 y then "EPSG:32627"
  else if between 200000 600000 x && between 0 500000 y then "EPSG:2147"
  else "EPSG:32628".

(** The object returned by [convertCoordinates]: [longitude] and
    [latitude] are a number or [null] ([None]); a property the object
    literal does not have reads [undefined] ([None]). *)
Record conversion : Type := {
  longitude : option float;
  latitude : option float;
  sourceSystem : option string;
  error : option string
}.

Definition converted (lon lat : float) (sourceProj : string) : conversion :=
  {| longitude := Some lon; latitude := Some lat;
     sourceSystem := Some sourceProj; error := None |}.

Definition rejected (msg : string) : conversion :=
  {| longitude := None; latitude := None; sourceSystem := None; error := Some msg |}.

Record bounds : Type := { minLon : float; maxLon : float; minLat : float; maxLat : float }.

Definition senegalBounds : bounds :=
  {| minLon := -17.8; maxLon := -11.2; minLat := 12.0; maxLat := 16.8 |}.

Definition within (b : bounds) (lon lat : float) : bool :=
  (minLon b <=? lon) && (lon <=? maxLon b) && (minLat b <=? lat) && (lat <=? maxLat b).

#[local] Close Scope float_scope.

Section Convert.
Context {rt : Runtime}.

(** The body of the [try] block, on a numeric pair. *)
Definition reproject (x y : float) : completion conversion :=
  let sourceProj := detectCoordinateSystem x y in
  if String.eqb sourceProj "EPSG:4326" then Normal (converted x y sourceProj)
  else
    let* p := proj4 sourceProj "EPSG:4326" (x, y) in
    let '(lon, lat) := p in
    if within senegalBounds lon lat then
      let* lon6 := Number (VString (toFixed 6 lon)) in
      let* lat6 := Number (VString (toFixed 6 lat)) in
      Normal (converted lon6 lat6 sourceProj)
    else
      Normal (rejected ("Coordonnées converties hors limites du Sénégal: [" +:+
                        toFixed 2 lon +:+ ", " +:+ toFixed 2 lat +:+ "]")).

Definition convertCoordinates (coordinates : jsval) : completion conversion :=
  match coordinates with
  | VArray (vx :: vy :: _) =>
      match vx, vy with
      | VNumber x, VNumber y =>
          try_catch (reproject x y)
            (fun e => Normal (rejected ("Erreur de conversion: " +:+ message e)))
      | _, _ => Normal (rejected "Coordonnées non numériques")
      end
  | _ => Normal (rejected "Coordonnées invalides")
  end.

End Convert.

(* ===================================================================== *)
(** * Representative coordinate of a geometry *)
(* ===================================================================== *)

(** [Array.isArray(v[0]) ? v[0] : null], and its nested forms. *)
Definition first_array (v : jsval) : completion jsval :=
  let* a := index0 v in
  Normal (if Array_isArray a then a else VNull).

Definition first_array2 (v : jsval) : completion jsval :=
  let* a := index0 v in
  if Array_isArray a then first_array a else Normal VNull.

Definition first_array3 (v : jsval) : completion jsval :=
  let* a := index0 v in
  if Array_isArray a then first_array2 a else Normal VNull.

Definition type_is (ty : jsval) (name : string) : bool :=
  match ty with
  | VString s => String.eqb s name
  | _ => false
  end.

(** The default branch logs a warning whose template literal converts
    [geometry.type] to a string; the log itself is not part of the
    result, the conversion can throw. *)
Definition extractCoordinates {rt : Runtime} (geometry : jsval) : completion jsval :=
  if negb (truthy geometry) then Normal VNull
  else
    let* coordinates := getProp geometry "coordinates" in
    if negb (truthy coordinates) then Normal VNull
    else
      let* ty := getProp geometry "type" in
      if type_is ty "Point" then Normal coordinates
      else if type_is ty "LineString" then first_array coordinates
      else if type_is ty "Polygon" then first_array2 coordinates
      else if type_is ty "MultiPoint" then first_array coordinates
      else if type_is ty "MultiLineString" then first_array2 coordinates
      else if type_is ty "MultiPolygon" then first_array3 coordinates
      else
        let* warning := ToString ty in
        Normal VNull.

(* ===================================================================== *)
(** * The batch mapper *)
(* ===================================================================== *)

(** The target tables admitted by the signature of
    [uploadGeoJSONWithProj4]. *)
Inductive table : Type := collection_points | urban_furniture | sweeping_routes.

(** A row to insert: an object literal, as its list of properties. *)
Definition record : Type := list (string * jsval).

Record conversionStats : Type := {
  total : nat;
  success : nat;
  failed : nat;
  systems : gmap string nat
}.

(** The answer of [supabase.from(table).insert(rows)]. *)
Record insert_reply : Type := { reply_data : jsval; reply_error : option string }.

(** What one call observes of the outside: the clock, as the text of
    [new Date().toISOString()] while the feature at a given index is
    mapped, and the database. *)
Record World : Type := {
  now : nat -> string;
  insert : table -> list record -> insert_reply
}.

Record upload_result : Type := {
  data : jsval;
  count : nat;
  skipped : nat;
  stats : conversionStats
}.

(** ** Statements that mutate [conversionStats] *)

Definition action (A : Type) : Type := conversionStats -> conversionStats * completion A.

Definition ret {A : Type} (a : A) : action A := fun st => (st, Normal a).

Definition lift {A : Type} (c : completion A) : action A := fun st => (st, c).

Definition update (f : conversionStats -> conversionStats) : action unit :=
  fun st => (f st, Normal tt).

Definition seq {A B : Type} (m : action A) (k : A -> action B) : action B :=
  fun st =>
    match m st with
    | (st', Normal a) => k a st'
    | (st', Throw e) => (st', Throw e)
    end.

(** The mutations made before a throw are kept when it is caught. *)
Definition catch {A : Type} (body : action A) (handler : exception -> action A) : action A :=
  fun st =>
    match body st with
    | (st', Normal a) => (st', Normal a)
    | (st', Throw e) => handler e st'
    end.

Notation "'let!' x := c 'in' k" := (seq c (fun x => k))
  (at level 10, x name, c at level 100, k at level 200).
Notation "c ;;; k" := (seq c (fun _ => k))
  (at level 100, k at level 200, right associativity).

(** [conversionStats.failed++] and [conversionStats.success++] *)
Definition failed_incr (st : conversionStats) : conversionStats :=
  {| total := total st; success := success st; failed := S (failed st);
     systems := systems st |}.

Definition success_incr (st : conversionStats) : conversionStats :=
  {| total := total st; success := S (success st); failed := failed st;
     systems := systems st |}.

(** [if (sourceSystem) systems[sourceSystem] = (systems[sourceSystem] || 0) + 1] *)
Definition systems_incr (sourceSystem : option string) (st : conversionStats)
  : conversionStats :=
  match sourceSystem with
  | Some s =>
      if truthy (VString s) then
        {| total := total st; success := success st; failed := failed st;
           systems := <[ s := S (default O (systems st !! s)) ]> (systems st) |}
      else st
  | None => st
  end.

(** ** Building a row from the properties of a feature *)

(** [feature.properties?.k] *)
Definition prop (feature : jsval) (k : string) : completion jsval :=
  let* properties := getProp feature "properties" in
  if nullish properties then Normal VUndefined else getProp properties k.

Definition lit (v : jsval) : completion jsval := Normal v.

(** [Number(v) || 0] *)
Definition Number_or_0 {rt : Runtime} (v : jsval) : completion jsval :=
  let* n := Number v in
  Normal (VNumber (if number_truthy n then n else 0%float)).

Definition getName (feature : jsval) (index : nat) : completion jsval :=
  prop feature "name" ||| prop feature "nom" ||| prop feature "NAME" |||
  prop feature "NOM" ||| lit (VString ("Élément " +:+ decimal (N.of_nat (index + 1)))).

Definition getStatus (feature : jsval) : completion jsval :=
  prop feature "status" ||| prop feature "statut" ||| prop feature "STATUS" |||
  prop feature "STATUT".

Section Mapper.
Context {rt : Runtime}.

Definition buildRecord (w : World) (tbl : table) (feature : jsval) (index : nat)
    (lon lat : float) : completion (option record) :=
  let* commune_id := prop feature "commune_id" ||| prop feature "COMMUNE_ID" ||| lit VNull in
  let baseData : record :=
    [("latitude", VNumber lat); ("longitude", VNumber lon); ("commune_id", commune_id)] in
  match tbl with
  | collection_points =>
      let* name := getName feature index in
      let* type := prop feature "type" ||| prop feature "TYPE" ||| lit (VString "bin") in
      let* capacity := prop feature "capacity_kg" ||| prop feature "capacite_kg" |||
                       prop feature "CAPACITY_KG" in
      let* capacity_kg := Number_or_0 capacity in
      let* waste_type := prop feature "waste_type" ||| prop feature "type_dechet" |||
                         prop feature "WASTE_TYPE" ||| lit (VString "general") in
      let* status := getStatus feature ||| lit (VString "active") in
      Normal (Some (baseData ++
        [("name", name); ("type", type); ("capacity_kg", capacity_kg);
         ("waste_type", waste_type); ("status", status)]))
  | urban_furniture =>
      let* type := prop feature "type" ||| prop feature "TYPE" ||| lit (VString "PRN") in
      let* name := getName feature index in
      let* location := prop feature "location" ||| prop feature "adresse" |||
                       prop feature "LOCATION" ||| prop feature "ADRESSE" |||
                       lit (VString EmptyString) in
      let* install_date := prop feature "install_date" ||| prop feature "date_installation" |||
                           prop feature "INSTALL_DATE" ||| lit (VString (now w index)) in
      let* last_maintenance_date :=
        prop feature "last_maintenance_date" ||| prop feature "derniere_maintenance" |||
        prop feature "LAST_MAINTENANCE" ||| lit VNull in
      let* capacity := prop feature "capacity_kg" ||| prop feature "capacite_kg" |||
                       prop feature "CAPACITY_KG" in
      let* capacity_kg := Number_or_0 capacity in
      let* status := getStatus feature ||| lit (VString "good") in
      Normal (Some (baseData ++
        [("type", type); ("name", name); ("location", location);
         ("install_date", install_date);
         ("last_maintenance_date", last_maintenance_date);
         ("capacity_kg", capacity_kg); ("status", status)]))
  | sweeping_routes =>
      let* name := getName feature index in
      let* code := prop feature "code" ||| prop feature "CODE" ||| prop feature "identifiant" |||
                   prop feature "IDENTIFIANT" ||| lit VNull in
      let* commune_id := prop feature "commune_id" ||| prop feature "COMMUNE_ID" ||| lit VNull in
      let* shift := prop feature "shift" ||| prop feature "equipe" ||| prop feature "SHIFT" |||
                    prop feature "EQUIPE" ||| lit (VString "matin") in
      let* length := prop feature "length_meters" ||| prop feature "longueur_m" |||
                     prop feature "LENGTH_METERS" ||| prop feature "LONGUEUR_M" in
      let* length_meters := Number_or_0 length in
      let* duration :=
        prop feature "estimated_duration_minutes" ||| prop feature "duree_estimee_min" |||
        prop feature "ESTIMATED_DURATION" ||| prop feature "DUREE_ESTIMEE" in
      let* estimated_duration_minutes := Number_or_0 duration in
      let* status := getStatus feature ||| lit (VString "active") in
      Normal (Some (
        [("name", name); ("code", code); ("commune_id", commune_id); ("shift", shift);
         ("length_meters", length_meters);
         ("estimated_duration_minutes", estimated_duration_minutes);
         ("status", status)] ++
        (if number_truthy lon && number_truthy lat
         then [("latitude", VNumber lat); ("longitude", VNumber lon)]
         else [])))
  end.

(** The callback given to [features.map]. *)
Definition mapFeature (w : World) (tbl : table) (feature : jsval) (index : nat)
  : action (option record) :=
  catch
    (let! geometry := lift (getProp feature "geometry") in
     let! coordinates := lift (extractCoordinates geometry) in
     if negb (truthy coordinates) then (update failed_incr ;;; ret None)
     else
       let! r := lift (convertCoordinates coordinates) in
       match longitude r, latitude r with
       | Some lon, Some lat =>
           update success_incr ;;;
           update (systems_incr (sourceSystem r)) ;;;
           lift (buildRecord w tbl feature index lon lat)
       | _, _ => update failed_incr ;;; ret None
       end)
    (fun _ => update failed_incr ;;; ret None).

(** [features.map(callback)], from the element at [index] on. *)
Fixpoint mapFrom (w : World) (tbl : table) (features : list jsval) (index : nat)
  : action (list (option record)) :=
  match features with
  | [] => ret []
  | feature :: rest =>
      let! item := mapFeature w tbl feature index in
      let! items := mapFrom w tbl rest (S index) in
      ret (item :: items)
  end.

(** [.filter(item => item !== null)] *)
Definition nonNull (items : list (option record)) : list record := omap id items.

Definition initialStats (features : list jsval) : conversionStats :=
  {| total := length features; success := O; failed := O; systems := ∅ |}.

(** [conversionStats] and [toInsert] once the features are mapped. *)
Definition mapFeatures (w : World) (tbl : table) (features : list jsval)
  : conversionStats * completion (list record) :=
  let '(st, items) := mapFrom w tbl features O (initialStats features) in
  (st, let* items := items in Normal (nonNull items)).

Definition dquote : string := String (ascii_of_nat 34) EmptyString.

Definition notAnObject : string := "Le fichier doit contenir un objet JSON valide".
Definition notACollection : string :=
  "Le GeoJSON doit être de type " +:+ dquote +:+ "FeatureCollection" +:+ dquote.
Definition noFeaturesArray : string :=
  "Le GeoJSON doit contenir un tableau " +:+ dquote +:+ "features" +:+ dquote.
Definition emptyFeatures : string := "Le GeoJSON ne contient aucune feature".
Definition noValidFeature : string :=
  "Aucune feature valide trouvée dans le GeoJSON après conversion".

Definition uploadGeoJSONWithProj4 (w : World) (geojson : jsval) (tbl : table)
  : completion upload_result :=
  try_catch
    (if negb (truthy geojson) || negb (typeof_object geojson)
     then Throw (Error notAnObject)
     else
       let* type := getProp geojson "type" in
       if negb (type_is type "FeatureCollection") then Throw (Error notACollection)
       else
         let* features := getProp geojson "features" in
         match features with
         | VArray features =>
             if (length features =? 0)%nat then Throw (Error emptyFeatures)
             else
               let '(conversionStats, toInsert) := mapFeatures w tbl features in
               let* toInsert := toInsert in
               if (length toInsert =? 0)%nat then Throw (Error noValidFeature)
               else
                 let reply := insert w tbl toInsert in
                 match reply_error reply with
                 | Some msg =>
                     Throw (Error ("Erreur lors de l'insertion en base : " +:+ msg))
                 | None =>
                     Normal {| data := reply_data reply; count := length toInsert;
                               skipped := failed conversionStats;
                               stats := conversionStats |}
                 end
         | _ => Throw (Error noFeaturesArray)
         end)
    (fun e => Throw e).

End Mapper.

(* ===================================================================== *)
(** * Vocabulary of the statements *)
(* ===================================================================== *)






(** A flat array of exactly two numbers. *)
Definition is_pair (v : jsval) : Prop := exists x y, v = VArray [VNumber x; VNumber y].

(** [v[0]] of a value that is neither [null] nor [undefined]. *)
Definition elem0 (v : jsval) : jsval :=
  match v with
  | VArray elems => hd VUndefined elems
  | VString (String c _) => VString (String c EmptyString)
  | VObject props => lookup_prop "0" props
  | _ => VUndefined
  end.

(** The first element, taken [depth] times; every element passed through
    must be an array, or the answer is [null]. *)
Fixpoint descend (depth : nat) (v : jsval) : jsval :=
  match depth with
  | O => v
  | S d => let a := elem0 v in if Array_isArray a then descend d a else VNull
  end.

(** How deep the representative coordinate lies, by geometry type. *)
Definition nesting (ty : jsval) : option nat :=
  if type_is ty "Point" then Some 0%nat
  else if type_is ty "LineString" || type_is ty "MultiPoint" then Some 1%nat
  else if type_is ty "Polygon" || type_is ty "MultiLineString" then Some 2%nat
  else if type_is ty "MultiPolygon" then Some 3%nat
  else None.

(** The representative coordinate as the specification words it. *)
Definition representative (geometry : jsval) : jsval :=
  match geometry with
  | VObject props =>
      let coordinates := lookup_prop "coordinates" props in
      if truthy coordinates then
        match nesting (lookup_prop "type" props) with
        | Some depth => descend depth coordinates
        | None => VNull
        end
      else VNull
  | _ => VNull
  end.

(** An evaluation that does not throw. *)
Definition returns {A : Type} (c : completion A) : Prop := exists a, c = Normal a.

(** The sum of the counters of a [systems] object. *)
Definition systems_sum (m : gmap string nat) : nat :=
  map_fold (fun _ n acc => (n + acc)%nat) O m.

(** The identifiers of the catalogue. *)
Definition catalogue : list string := ["EPSG:4326"; "EPSG:32628"; "EPSG:32627"; "EPSG:2147"].

(** [feature.properties?.k] of a feature that is neither [null] nor
    [undefined]. *)
Definition propOf (feature : jsval) (k : string) : jsval :=
  let properties := member feature "properties" in
  if nullish properties then VUndefined else member properties k.

(** The first truthy value of a list of candidates, [last] when there is
    none. *)
Fixpoint pick (candidates : list jsval) (last : jsval) : jsval :=
  match candidates with
  | [] => last
  | v :: rest => if truthy v then v else pick rest last
  end.

(** The values given to [Number] while the row of a feature is built,
    in the order of the calls. *)
Definition numbered (tbl : table) (feature : jsval) : list jsval :=
  let p := propOf feature in
  match tbl with
  | collection_points | urban_furniture =>
      [pick [p "capacity_kg"; p "capacite_kg"] (p "CAPACITY_KG")]
  | sweeping_routes =>
      [pick [p "length_meters"; p "longueur_m"; p "LENGTH_METERS"] (p "LONGUEUR_M");
       pick [p "estimated_duration_minutes"; p "duree_estimee_min"; p "ESTIMATED_DURATION"]
            (p "DUREE_ESTIMEE")]
  end.

Section Views.
Context {rt : Runtime}.

(** Whether the row of a feature can be built: no call of [Number]
    throws. *)
Definition builds (tbl : table) (feature : jsval) : bool :=
  forallb (fun v => match Number v with Normal _ => true | Throw _ => false end)
          (numbered tbl feature).

(** What the callback has in hand when it starts building a row: the
    converted pair and its source system; [None] when the feature is
    dropped before that. *)
Definition converts (feature : jsval) : option (float * float * option string) :=
  match
    (let* geometry := getProp feature "geometry" in
     let* coordinates := extractCoordinates geometry in
     if negb (truthy coordinates) then Normal None
     else
       let* r := convertCoordinates coordinates in
       match longitude r, latitude r with
       | Some lon, Some lat => Normal (Some (lon, lat, sourceSystem r))
       | _, _ => Normal None
       end)
  with
  | Normal o => o
  | Throw _ => None
  end.

(** The effect of one feature on the statistics: a feature that
    converts is counted as a success under its source system before its
    row is built, and as a failure too when the row cannot be built. *)
Definition countFeature (tbl : table) (st : conversionStats) (feature : jsval)
  : conversionStats :=
  match converts feature with
  | Some (_, _, sys) =>
      let st' := systems_incr sys (success_incr st) in
      if builds tbl feature then st' else failed_incr st'
  | None => failed_incr st
  end.

(** The row of one feature, [None] for [null]. *)
Definition rowOf (w : World) (tbl : table) (feature : jsval) (index : nat) : option record :=
  match converts feature with
  | Some (lon, lat, _) =>
      match buildRecord w tbl feature index lon lat with
      | Normal row => row
      | Throw _ => None
      end
  | None => None
  end.

Fixpoint rowsFrom (w : World) (tbl : table) (features : list jsval) (index : nat)
  : list (option record) :=
  match features with
  | [] => []
  | feature :: rest => rowOf w tbl feature index :: rowsFrom w tbl rest (S index)
  end.

End Views.

(** The aliases of the installation date of an urban furniture item. *)
Definition installDate (feature : jsval) : completion jsval :=
  prop feature "install_date" ||| prop feature "date_installation" |||
  prop feature "INSTALL_DATE".

(** A feature none of whose installation date aliases is truthy: its
    urban furniture row is stamped with the clock. *)
Definition needs_clock (feature : jsval) : Prop :=
  exists v, installDate feature = Normal v /\ truthy v = false.

(** A host for the examples: its proj4 answers a point near Dakar for
    UTM 28N, a point in the ocean for UTM 27N, and throws for the other
    parameter strings; the examples convert no number other than an
    integer to text and call no built-in function. *)
Definition exampleRuntime : Runtime :=
  {| proj4_transform := fun src _ _ =>
       if String.eqb src "+proj=utm +zone=28 +datum=WGS84 +units=m +no_defs"
       then Normal (-16.8589434567, 14.7380128912)%float
       else if String.eqb src "+proj=utm +zone=27 +datum=WGS84 +units=m +no_defs"
       then Normal (-22.8589434567, 14.7380128912)%float
       else Throw (Error "coordinates must be finite numbers");
     exponent_notation := fun _ => "1e+21";
     ToNumber_other := fun _ => nan;
     shortest_decimal := fun _ => "0.1";
     function_text := fun f => "function " +:+ f +:+ "() { [native code] }";
     call_method := fun _ _ => Normal VUndefined |}.

(** A world for the examples: a clock that shows [stamp] and a database
    that accepts every insertion. *)
Definition exampleWorld (stamp : string) : World :=
  {| now := fun _ => stamp;
     insert := fun _ _ => {| reply_data := VNull; reply_error := None |} |}.

Definition pointFeature (x y : float) (props : list (string * jsval)) : jsval :=
  VObject [("type", VString "Feature");
           ("geometry", VObject [("type", VString "Point");
                                 ("coordinates", VArray [VNumber x; VNumber y])]);
           ("properties", VObject props)].

(** A feature whose polygon has a number where its first ring should be. *)
Definition malformedFeature : jsval :=
  VObject [("type", VString "Feature");
           ("geometry", VObject [("type", VString "Polygon");
                                 ("coordinates", VArray [VNumber 1%float])]);
           ("properties", VObject [])].

Definition featureCollection (features : list jsval) : jsval :=
  VObject [("type", VString "FeatureCollection"); ("features", VArray features)].

(* ===================================================================== *)
(** * The fill level colour of the map view *)
(* ===================================================================== *)

(** [getFillLevelColor(level?: number)], defined inside the [MapView]
    component: the colour of a marker by the fill level of its
    collection point; [None] is an absent level. *)
Definition getFillLevelColor (level : option float) : string :=
  match level with
  | None => "#E5E7EB"
  | Some l =>
      if negb (number_truthy l) then "#E5E7EB"
      else if (l <? 30)%float then "#10B981"
      else if (l <? 70)%float then "#F59E0B"
      else "#EF4444"
  end.

(* ===================================================================== *)
(** * Vocabulary of the statements on rows *)
(* ===================================================================== *)

(** The columns of the rows of each table, in the order of the object
    literal. *)
Definition columns (tbl : table) : list string :=
  match tbl with
  | collection_points =>
      ["latitude"; "longitude"; "commune_id"; "name"; "type"; "capacity_kg";
       "waste_type"; "status"]
  | urban_furniture =>
      ["latitude"; "longitude"; "commune_id"; "type"; "name"; "location";
       "install_date"; "last_maintenance_date"; "capacity_kg"; "status"]
  | sweeping_routes =>
      ["name"; "code"; "commune_id"; "shift"; "length_meters";
       "estimated_duration_minutes"; "status"]
  end.

(** The row of a feature, field by field: every field is the first
    truthy value among its aliases, in their order, or its default; the
    numeric fields are read by [Number], which can throw, and then there
    is no row. *)
Definition rowByAliases {rt : Runtime} (w : World) (tbl : table) (feature : jsval)
    (index : nat) (lon lat : float) : completion record :=
  let p := propOf feature in
  let name := pick [p "name"; p "nom"; p "NAME"; p "NOM"]
                   (VString ("Élément " +:+ decimal (N.of_nat (index + 1)))) in
  let status dflt := pick [p "status"; p "statut"; p "STATUS"; p "STATUT"] (VString dflt) in
  let commune_id := pick [p "commune_id"; p "COMMUNE_ID"] VNull in
  let capacity := Number_or_0 (pick [p "capacity_kg"; p "capacite_kg"] (p "CAPACITY_KG")) in
  match tbl with
  | collection_points =>
      let* capacity_kg := capacity in
      Normal
        [("latitude", VNumber lat); ("longitude", VNumber lon); ("commune_id", commune_id);
         ("name", name);
         ("type", pick [p "type"; p "TYPE"] (VString "bin"));
         ("capacity_kg", capacity_kg);
         ("waste_type", pick [p "waste_type"; p "type_dechet"; p "WASTE_TYPE"]
                             (VString "general"));
         ("status", status "active")]
  | urban_furniture =>
      let* capacity_kg := capacity in
      Normal
        [("latitude", VNumber lat); ("longitude", VNumber lon); ("commune_id", commune_id);
         ("type", pick [p "type"; p "TYPE"] (VString "PRN"));
         ("name", name);
         ("location", pick [p "location"; p "adresse"; p "LOCATION"; p "ADRESSE"]
                           (VString EmptyString));
         ("install_date", pick [p "install_date"; p "date_installation"; p "INSTALL_DATE"]
                               (VString (now w index)));
         ("last_maintenance_date",
          pick [p "last_maintenance_date"; p "derniere_maintenance"; p "LAST_MAINTENANCE"]
               VNull);
         ("capacity_kg", capacity_kg);
         ("status", status "good")]
  | sweeping_routes =>
      let* length_meters :=
        Number_or_0 (pick [p "length_meters"; p "longueur_m"; p "LENGTH_METERS"]
                          (p "LONGUEUR_M")) in
      let* estimated_duration_minutes :=
        Number_or_0 (pick [p "estimated_duration_minutes"; p "duree_estimee_min";
                           p "ESTIMATED_DURATION"] (p "DUREE_ESTIMEE")) in
      Normal
        ([("name", name);
          ("code", pick [p "code"; p "CODE"; p "identifiant"; p "IDENTIFIANT"] VNull);
          ("commune_id", commune_id);
          ("shift", pick [p "shift"; p "equipe"; p "SHIFT"; p "EQUIPE"] (VString "matin"));
          ("length_meters", length_meters);
          ("estimated_duration_minutes", estimated_duration_minutes);
          ("status", status "active")] ++
         (if number_truthy lon && number_truthy lat
          then [("latitude", VNumber lat); ("longitude", VNumber lon)]
          else []))
  end.

(** The row of the feature at position [index], when the feature
    converts and its row can be built. *)
Definition rowAt {rt : Runtime} (w : World) (tbl : table) (index : nat) (feature : jsval)
  : option record :=
  match converts feature with
  | Some (lon, lat, _) =>
      match rowByAliases w tbl feature index lon lat with
      | Normal row => Some row
      | Throw _ => None
      end
  | None => None
  end.

(** The source system under which a feature is counted. *)
Definition sourceOf {rt : Runtime} (feature : jsval) : option string :=
  match converts feature with
  | Some (_, _, sys) => sys
  | None => None
  end.

(** Whether a feature is counted under the system [s]. *)
Definition countedAs {rt : Runtime} (s : string) (feature : jsval) : bool :=
  match sourceOf feature with
  | Some s' => String.eqb s s'
  | None => false
  end.

(** How many features are counted under the system [s]. *)
Definition detectedAs {rt : Runtime} (s : string) (features : list jsval) : nat :=
  length (List.filter (countedAs s) features).

(** Whether a feature converts. *)
Definition converted_ok {rt : Runtime} (feature : jsval) : bool :=
  match converts feature with
  | Some _ => true
  | None => false
  end.

(** Whether a feature yields a row: it converts and its row can be
    built. *)
Definition yields_row {rt : Runtime} (tbl : table) (feature : jsval) : bool :=
  converted_ok feature && builds tbl feature.

(** A geometry that reaches the default branch of the switch of
    [extractCoordinates]: it is truthy, its coordinates are truthy and
    its type is none of the six. *)
Definition unsupported (geometry : jsval) : bool :=
  truthy geometry && truthy (member geometry "coordinates") &&
  match nesting (member geometry "type") with
  | Some _ => false
  | None => true
  end.

(** A feature whose capacity is an object with an own [toString] that is
    not a function: [Number] throws on it. *)
Definition unbuildableFeature : jsval :=
  VObject [("type", VString "Feature");
           ("geometry", VObject [("type", VString "Point");
                                 ("coordinates",
                                  VArray [VNumber (-17.44)%float; VNumber 14.69%float])]);
           ("properties",
            VObject [("capacity_kg", VObject [("toString", VNumber 1%float)])])].

(** [n] is the integer nearest to [m * 2^e * 10^6], the larger one on a
    tie, for a number of magnitude [m * 2^e] with [e < 0]. *)
Definition nearest_micro (m : positive) (e : Z) (n : Z) : Prop :=
  e < 0 /\ - 2 ^ (- e) <= 2 * (Z.pos m * 10 ^ 6 - n * 2 ^ (- e)) < 2 ^ (- e).

(* ===================================================================== *)
(** * Properties of detection *)
(* ===================================================================== *)

Section DetectionFacts.
#[local] Open Scope float_scope.

Lemma between_inside lo hi v : between lo hi v = true <-> inside lo hi v.
Proof. unfold between, inside. apply andb_true_iff. Qed.

Lemma between_outside lo hi v : between lo hi v = false <-> ~ inside lo hi v.
Proof.
  rewrite <- between_inside. destruct (between lo hi v); split; congruence.
Qed.

Lemma range_test lx hx ly hy x y :
  between lx hx x && between ly hy y = true <-> inside lx hx x /\ inside ly hy y.
Proof. rewrite andb_true_iff, !between_inside. reflexivity. Qed.

Lemma range_test_false lx hx ly hy x y :
  between lx hx x && between ly hy y = false <-> ~ (inside lx hx x /\ inside ly hy y).
Proof.
  rewrite <- range_test.
  destruct (between lx hx x && between ly hy y); split; congruence.
Qed.

(** The identifier returned is one of the four of the catalogue. *)
Lemma detectCoordinateSystem_catalogue x y :
  detectCoordinateSystem x y = "EPSG:4326" \/
  detectCoordinateSystem x y = "EPSG:32628" \/
  detectCoordinateSystem x y = "EPSG:32627" \/
  detectCoordinateSystem x y = "EPSG:2147".
Proof.
  unfold detectCoordinateSystem.
  repeat match goal with |- context [if ?b then _ else _] => destruct b end; auto.
Qed.

Lemma detectCoordinateSystem_geographic x y :
  inside (-180) 180 x -> inside (-90) 90 y -> detectCoordinateSystem x y = "EPSG:4326".
Proof.
  intros Hx Hy. unfold detectCoordinateSystem.
  now rewrite (proj2 (range_test _ _ _ _ x y) (conj Hx Hy)).
Qed.

(** C1. The four range tests are tried in the order geographic, UTM 28N,
    UTM 27N, Lambert, each with inclusive bounds, the first that holds
    gives the identifier, and UTM 28N is the answer when none holds. The
    corners of every rectangle are classified by the rectangle they bound;
    the two corners that the UTM 27N rectangle shares with the UTM 28N
    one go to UTM 28N, which is tried first. *)
Theorem detectCoordinateSystem_first_match (x y : float) :
  let geographic := inside (-180) 180 x /\ inside (-90) 90 y in
  let utm28 := inside 200000 800000 x /\ inside 1400000 1900000 y in
  let utm27 := inside 400000 900000 x /\ inside 1400000 1900000 y in
  let lambert := inside 200000 600000 x /\ inside 0 500000 y in
  (geographic -> detectCoordinateSystem x y = "EPSG:4326") /\
  (~ geographic -> utm28 -> detectCoordinateSystem x y = "EPSG:32628") /\
  (~ geographic -> ~ utm28 -> utm27 -> detectCoordinateSystem x y = "EPSG:32627") /\
  (~ geographic -> ~ utm28 -> ~ utm27 -> lambert ->
     detectCoordinateSystem x y = "EPSG:2147") /\
  (~ geographic -> ~ utm28 -> ~ utm27 -> ~ lambert ->
     detectCoordinateSystem x y = "EPSG:32628") /\
  Forall (fun p => detectCoordinateSystem p.1 p.2 = "EPSG:4326")
         (corners (-180) 180 (-90) 90) /\
  Forall (fun p => detectCoordinateSystem p.1 p.2 = "EPSG:32628")
         (corners 200000 800000 1400000 1900000) /\
  Forall (fun p => detectCoordinateSystem p.1 p.2 = "EPSG:32627")
         [(900000, 1400000); (900000, 1900000)] /\
  Forall (fun p => detectCoordinateSystem p.1 p.2 = "EPSG:32628")
         [(400000, 1400000); (400000, 1900000)] /\
  Forall (fun p => detectCoordinateSystem p.1 p.2 = "EPSG:2147")
         (corners 200000 600000 0 500000).
Proof.
  cbv zeta. unfold detectCoordinateSystem.
  repeat split.
  - intros H. apply range_test in H. now rewrite H.
  - intros H1 H2. apply range_test_false in H1. apply range_test in H2.
    now rewrite H1, H2.
  - intros H1 H2 H3. apply range_test_false in H1, H2. apply range_test in H3.
    now rewrite H1, H2, H3.
  - intros H1 H2 H3 H4. apply range_test_false in H1, H2, H3. apply range_test in H4.
    now rewrite H1, H2, H3, H4.
  - intros H1 H2 H3 H4. apply range_test_false in H1, H2, H3, H4.
    now rewrite H1, H2, H3, H4.
  - repeat constructor.
  - repeat constructor.
  - repeat constructor.
  - repeat constructor.
  - repeat constructor.
Qed.

(** A point of Dakar in UTM 28N coordinates. *)
Lemma detectCoordinateSystem_first_match_witness :
  detectCoordinateSystem 300000 1630000 = "EPSG:32628".
Proof.
  destruct (detectCoordinateSystem_first_match 300000 1630000) as (_ & H & _).
  apply H.
  - intros [[_ H'] _]. vm_compute in H'. discriminate H'.
  - repeat split.
Defined.

End DetectionFacts.

(* ===================================================================== *)
(** * Properties of conversion *)
(* ===================================================================== *)

Section ConversionFacts.
Context {rt : Runtime}.
#[local] Open Scope float_scope.

Lemma detected_system_registered x y :
  exists src, proj4_defs (detectCoordinateSystem x y) = Some src.
Proof.
  destruct (detectCoordinateSystem_catalogue x y) as [H | [H | [H | H]]];
    rewrite H; eexists; reflexivity.
Qed.

Lemma within_inside lon lat :
  within senegalBounds lon lat = true <->
  inside (-17.8) (-11.2) lon /\ inside 12.0 16.8 lat.
Proof.
  unfold within, inside. cbn [minLon maxLon minLat maxLat senegalBounds].
  rewrite !andb_true_iff. tauto.
Qed.

(** [Number] of a string does not throw: it is the number the string
    denotes. *)
Lemma Number_string s : Number (VString s) = Normal (StringToNumber s).
Proof. reflexivity. Qed.

Lemma reproject_geographic x y :
  detectCoordinateSystem x y = "EPSG:4326" ->
  reproject x y = Normal (converted x y "EPSG:4326").
Proof. intros H. unfold reproject. rewrite H. reflexivity. Qed.

Lemma reproject_projected x y :
  detectCoordinateSystem x y <> "EPSG:4326" ->
  reproject x y =
    let* p := proj4 (detectCoordinateSystem x y) "EPSG:4326" (x, y) in
    if within senegalBounds p.1 p.2 then
      Normal (converted (StringToNumber (toFixed 6 p.1))
                        (StringToNumber (toFixed 6 p.2))
                        (detectCoordinateSystem x y))
    else
      Normal (rejected ("Coordonnées converties hors limites du Sénégal: [" +:+
                        toFixed 2 p.1 +:+ ", " +:+ toFixed 2 p.2 +:+ "]")).
Proof.
  intros H. unfold reproject.
  apply String.eqb_neq in H. rewrite H.
  destruct (proj4 _ _ _) as [[lon lat] | e]; reflexivity.
Qed.

(** C4. A pair inside the geographic rectangle is returned as it is,
    with the geographic identifier; neither the rounding nor the regional
    bounding box is applied, whatever the host. *)
Theorem convertCoordinates_geographic_identity (x y : float) (rest : list jsval) :
  inside (-180) 180 x -> inside (-90) 90 y ->
  convertCoordinates (VArray (VNumber x :: VNumber y :: rest)) =
    Normal {| longitude := Some x; latitude := Some y;
              sourceSystem := Some "EPSG:4326"; error := None |}.
Proof.
  intros Hx Hy. cbn [convertCoordinates].
  rewrite reproject_geographic; [reflexivity |].
  now apply detectCoordinateSystem_geographic.
Qed.

(** C3. A pair detected as a projected system is transformed with the
    parameter string registered for that system; a result inside the
    regional box is returned rounded to six decimals with the detected
    identifier, a result outside is rejected with a message that shows
    both values with two decimals. The rounded value is
    [Number(v.toFixed(6))]; [Number] of a string is [StringToNumber] and
    does not throw. *)
Theorem convertCoordinates_reprojected (x y : float) (rest : list jsval)
    (src : string) (lon lat : float) :
  detectCoordinateSystem x y <> "EPSG:4326" ->
  proj4_defs (detectCoordinateSystem x y) = Some src ->
  proj4_transform src "+proj=longlat +datum=WGS84 +no_defs" (x, y) = Normal (lon, lat) ->
  let result := convertCoordinates (VArray (VNumber x :: VNumber y :: rest)) in
  (inside (-17.8) (-11.2) lon /\ inside 12.0 16.8 lat ->
   result =
     Normal {| longitude := Some (StringToNumber (toFixed 6 lon));
               latitude := Some (StringToNumber (toFixed 6 lat));
               sourceSystem := Some (detectCoordinateSystem x y);
               error := None |}) /\
  (~ (inside (-17.8) (-11.2) lon /\ inside 12.0 16.8 lat) ->
   result =
     Normal {| longitude := None; latitude := None; sourceSystem := None;
               error := Some ("Coordonnées converties hors limites du Sénégal: [" +:+
                              toFixed 2 lon +:+ ", " +:+ toFixed 2 lat +:+ "]") |}).
Proof.
  intros Hgeo Hsrc Hproj result. subst result. cbn [convertCoordinates].
  rewrite (reproject_projected _ _ Hgeo).
  unfold proj4. rewrite Hsrc. cbn [proj4_defs String.eqb Ascii.eqb Bool.eqb].
  rewrite Hproj. cbn [bind try_catch fst snd].
  rewrite <- within_inside.
  destruct (within senegalBounds lon lat); split; intros H;
    try reflexivity; congruence.
Qed.




(** The conversion of a numeric pair, case by case. *)
Lemma convertCoordinates_pair x y rest :
  let r := convertCoordinates (VArray (VNumber x :: VNumber y :: rest)) in
  (detectCoordinateSystem x y = "EPSG:4326" /\
   r = Normal (converted x y "EPSG:4326")) \/
  (detectCoordinateSystem x y <> "EPSG:4326" /\
   ((exists e, proj4 (detectCoordinateSystem x y) "EPSG:4326" (x, y) = Throw e /\
               r = Normal (rejected ("Erreur de conversion: " +:+ message e))) \/
    (exists lon lat,
       proj4 (detectCoordinateSystem x y) "EPSG:4326" (x, y) = Normal (lon, lat) /\
       within senegalBounds lon lat = false /\
       r = Normal (rejected ("Coordonnées converties hors limites du Sénégal: [" +:+
                             toFixed 2 lon +:+ ", " +:+ toFixed 2 lat +:+ "]"))) \/
    (exists lon lat,
       proj4 (detectCoordinateSystem x y) "EPSG:4326" (x, y) = Normal (lon, lat) /\
       within senegalBounds lon lat = true /\
       r = Normal (converted (StringToNumber (toFixed 6 lon))
                             (StringToNumber (toFixed 6 lat))
                             (detectCoordinateSystem x y))))).
Proof.
  cbv zeta. cbn [convertCoordinates].
  destruct (String.eqb_spec (detectCoordinateSystem x y) "EPSG:4326") as [Hgeo | Hgeo].
  - left. split; [assumption |]. now rewrite reproject_geographic.
  - right. split; [assumption |]. rewrite (reproject_projected _ _ Hgeo).
    destruct (proj4 _ _ _) as [[lon lat] | e] eqn:Hp; cbn [bind try_catch fst snd].
    + destruct (within senegalBounds lon lat) eqn:Hw.
      * right. right. exists lon, lat. auto.
      * right. left. exists lon, lat. auto.
    + left. exists e. auto.
Qed.

Lemma convertCoordinates_returns coordinates : returns (convertCoordinates coordinates).
Proof.
  destruct coordinates as [| | | | | elems | |]; try (eexists; reflexivity).
  destruct elems as [| vx [| vy rest]]; try (eexists; reflexivity).
  destruct vx as [| | | x | | | |]; try (eexists; reflexivity).
  destruct vy as [| | | y | | | |]; try (eexists; reflexivity).
  destruct (convertCoordinates_pair x y rest)
    as [[_ ->] | [_ [(e & _ & ->) | [(lon & lat & _ & _ & ->)
                                   | (lon & lat & _ & _ & ->)]]]];
    eexists; reflexivity.
Qed.


End ConversionFacts.

(** A point of Paris: inside the geographic rectangle, far outside the
    regional box, and returned unchanged. *)
Lemma convertCoordinates_geographic_identity_witness :
  within senegalBounds 2.35 48.85 = false /\
  @convertCoordinates exampleRuntime (VArray [VNumber 2.35; VNumber 48.85]) =
    Normal {| longitude := Some 2.35%float; latitude := Some 48.85%float;
              sourceSystem := Some "EPSG:4326"; error := None |}.
Proof.
  split; [reflexivity |].
  apply (@convertCoordinates_geographic_identity exampleRuntime 2.35 48.85 []);
    split; reflexivity.
Defined.

(** With the example host, a UTM 28N pair is accepted and rounded. *)
Lemma convertCoordinates_reprojected_witness :
  @convertCoordinates exampleRuntime (VArray [VNumber 300000; VNumber 1630000]) =
    Normal {| longitude := Some (-16.858943)%float; latitude := Some 14.738013%float;
              sourceSystem := Some "EPSG:32628"; error := None |}.
Proof.
  refine (proj1 (@convertCoordinates_reprojected exampleRuntime 300000 1630000 []
           "+proj=utm +zone=28 +datum=WGS84 +units=m +no_defs"
           (-16.8589434567) 14.7380128912 _ _ _) _).
  - vm_compute. discriminate.
  - reflexivity.
  - reflexivity.
  - repeat split.
Defined.


(** With the example host, a UTM 27N pair lands outside the box; what
    the message shows is rounded to two decimals. *)
Example convertCoordinates_out_of_bounds :
  @convertCoordinates exampleRuntime (VArray [VNumber 850000; VNumber 1630000]) =
    Normal (rejected "Coordonnées converties hors limites du Sénégal: [-22.86, 14.74]").
Proof. reflexivity. Qed.

(** A throw of the projection is turned into a failure. *)
Example convertCoordinates_catches :
  @convertCoordinates exampleRuntime (VArray [VNumber 300000; VNumber 200000]) =
    Normal (rejected "Erreur de conversion: coordinates must be finite numbers").
Proof. reflexivity. Qed.

(* ===================================================================== *)
(** * Properties of rounding *)
(* ===================================================================== *)

(** [toFixed] rounds to the nearest multiple of [10^-f], upwards on a
    tie: with [p = m * 10^f] and [d = 2^-e], the integer chosen is within
    half a unit of [p / d]. *)
Lemma scaled_round_nearest (f : nat) (m : positive) (e : Z) :
  let n := scaled_round f m e in
  let p := Z.pos m * 10 ^ Z.of_nat f in
  (0 <= e -> n = p * 2 ^ e) /\
  (e < 0 -> - 2 ^ (- e) <= 2 * (p - n * 2 ^ (- e)) < 2 ^ (- e)).
Proof.
  cbv zeta. unfold scaled_round. split; intros He.
  - apply Z.leb_le in He. now rewrite He.
  - apply Z.leb_gt in He as Hb. rewrite Hb.
    set (p := Z.pos m * 10 ^ Z.of_nat f). set (d := 2 ^ (- e)).
    assert (Hd : 0 < d) by (apply Z.pow_pos_nonneg; lia).
    pose proof (Z.div_mod (2 * p + d) (2 * d) ltac:(lia)) as Hdm.
    pose proof (Z.mod_pos_bound (2 * p + d) (2 * d) ltac:(lia)) as Hm.
    nia.
Qed.

(** ** What [Number(x.toFixed(f))] is *)

Lemma append_nil (b : string) : EmptyString +:+ b = b.
Proof. reflexivity. Qed.

Lemma append_cons c (a b : string) : String c a +:+ b = String c (a +:+ b).
Proof. reflexivity. Qed.

Lemma append_empty (a : string) : a +:+ EmptyString = a.
Proof. induction a as [| c a IH]; [reflexivity |]. now rewrite append_cons, IH. Qed.

Lemma length_append (a b : string) :
  String.length (a +:+ b) = (String.length a + String.length b)%nat.
Proof.
  induction a as [| c a IH]; [reflexivity |].
  rewrite append_cons. cbn [String.length Nat.add]. now f_equal.
Qed.

Lemma all_digits_append a b :
  all_digits (a +:+ b) = all_digits a && all_digits b.
Proof.
  induction a as [| c a IH]; [reflexivity |].
  rewrite append_cons. cbn [all_digits].
  destruct (digit_of c); [exact IH | reflexivity].
Qed.

Lemma digits_value_append a b acc :
  all_digits a = true -> digits_value (a +:+ b) acc = digits_value b (digits_value a acc).
Proof.
  revert acc. induction a as [| c a IH]; intros acc Ha; [reflexivity |].
  cbn [all_digits] in Ha. rewrite append_cons. cbn [digits_value].
  destruct (digit_of c); [| discriminate Ha]. now apply IH.
Qed.

(** Reading stops at the end of the digits. *)
Lemma read_digits_stop a t acc count :
  all_digits a = true ->
  match t with
  | String c _ => digit_of c = None
  | EmptyString => True
  end ->
  read_digits (a +:+ t) acc count = (digits_value a acc, (count + String.length a)%nat, t).
Proof.
  revert acc count. induction a as [| c a IH]; intros acc count Ha Ht.
  - rewrite append_nil. cbn [digits_value String.length]. rewrite Nat.add_0_r.
    destruct t as [| c t]; [reflexivity |]. cbn [read_digits]. now rewrite Ht.
  - cbn [all_digits] in Ha. rewrite append_cons.
    cbn [read_digits digits_value String.length].
    destruct (digit_of c); [| discriminate Ha].
    rewrite IH by assumption. now rewrite Nat.add_succ_r.
Qed.

Lemma all_digits_uint d : all_digits (NilEmpty.string_of_uint d) = true.
Proof. induction d; cbn [NilEmpty.string_of_uint all_digits]; auto. Qed.

#[local] Ltac eval_digit :=
  match goal with
  | |- context [digit_of ?c] =>
      let d := eval vm_compute in (digit_of c) in change (digit_of c) with d
  end; cbv iota.

Lemma digits_value_uint_acc d : forall p,
  digits_value (NilEmpty.string_of_uint d) (N.pos p) = N.pos (Pos.of_uint_acc d p).
Proof.
  induction d; intros p; cbn [NilEmpty.string_of_uint digits_value Pos.of_uint_acc];
    [reflexivity | ..];
    eval_digit; rewrite <- IHd; f_equal; lia.
Qed.

Lemma digits_value_uint d :
  digits_value (NilEmpty.string_of_uint d) 0 = N.of_uint d.
Proof.
  unfold N.of_uint.
  induction d; cbn [NilEmpty.string_of_uint digits_value Pos.of_uint];
    [reflexivity | ..];
    eval_digit; [exact IHd | ..]; apply digits_value_uint_acc.
Qed.

Lemma decimal_digits n :
  all_digits (decimal n) = true /\ digits_value (decimal n) 0 = n /\
  (0 < String.length (decimal n))%nat.
Proof.
  unfold decimal, NilZero.string_of_uint.
  pose proof (DecimalN.Unsigned.of_to n) as Hn.
  destruct (N.to_uint n) eqn:Hd; subst n;
    try (split; [apply all_digits_uint
                | split; [apply digits_value_uint | cbn [NilEmpty.string_of_uint String.length]; lia]]).
  repeat split. cbn [String.length]. lia.
Qed.

Lemma zeros_digits k :
  all_digits (zeros k) = true /\ String.length (zeros k) = k /\
  digits_value (zeros k) 0 = 0%N.
Proof.
  induction k as [| k (Ha & Hl & Hv)]; [now repeat split |].
  cbn [zeros all_digits String.length digits_value]. eval_digit.
  repeat split; auto.
Qed.

Lemma substring_prefix_length m : forall j,
  (j <= String.length m)%nat -> String.length (substring 0 j m) = j.
Proof.
  induction m as [| c m IH]; intros [| j] Hj; cbn [String.length substring] in *;
    try reflexivity; try lia.
  f_equal. apply IH. lia.
Qed.

Lemma substring_split m : forall j,
  (j <= String.length m)%nat ->
  substring 0 j m +:+ substring j (String.length m - j) m = m.
Proof.
  induction m as [| c m IH]; intros [| j] Hj; cbn [String.length] in *.
  - reflexivity.
  - lia.
  - cbn [substring Nat.sub]. rewrite append_nil. f_equal.
    specialize (IH 0%nat ltac:(lia)). rewrite Nat.sub_0_r in IH.
    destruct m; [reflexivity |]. cbn [substring] in IH. now rewrite append_nil in IH.
  - cbn [substring Nat.sub]. rewrite append_cons. f_equal. apply IH. lia.
Qed.

(** The text of [fixed_digits] reads back as the integer it was made
    from, with [f] decimals. *)
Lemma plain_decimal_fixed_digits (neg : bool) (f : nat) (n : Z) :
  (0 < f)%nat -> 0 <= n ->
  plain_decimal ((if neg then "-" else EmptyString) +:+ fixed_digits f n) =
    Some (neg, Z.to_N n, f).
Proof.
  intros Hf Hn. unfold fixed_digits.
  destruct (decimal_digits (Z.to_N n)) as (Hd & Hv & Hl).
  set (m0 := decimal (Z.to_N n)) in *.
  set (m := if (String.length m0 <=? f)%nat
            then zeros (f + 1 - String.length m0) +:+ m0 else m0).
  assert (Hm : all_digits m = true /\ digits_value m 0 = Z.to_N n /\
               (f < String.length m)%nat).
  { subst m. destruct (Nat.leb_spec (String.length m0) f) as [Hle | Hgt].
    - destruct (zeros_digits (f + 1 - String.length m0)) as (Hz & Hzl & Hzv).
      rewrite all_digits_append, Hz, Hd, length_append, Hzl.
      rewrite digits_value_append by exact Hz. rewrite Hzv.
      repeat split; [exact Hv | lia].
    - auto. }
  destruct Hm as (Hma & Hmv & Hml).
  destruct (Nat.eqb_spec f 0) as [-> | _]; [lia |].
  set (k := String.length m) in *.
  pose proof (substring_split m (k - f) ltac:(lia)) as Hsplit.
  replace (String.length m - (k - f))%nat with f in Hsplit by (subst k; lia).
  pose proof (substring_prefix_length m (k - f) ltac:(lia)) as Hla.
  set (a := substring 0 (k - f) m) in *. set (b := substring (k - f) f m) in *.
  assert (Hab : all_digits a = true /\ all_digits b = true).
  { rewrite <- Hsplit, all_digits_append in Hma. now apply andb_true_iff in Hma. }
  destruct Hab as [Ha Hb].
  assert (Hlb : String.length b = f).
  { pose proof (f_equal String.length Hsplit) as H. rewrite length_append in H.
    subst k. lia. }
  assert (Hbody :
            (let '(i, ci, rest) := read_digits (a +:+ "." +:+ b) 0 0 in
             if (ci =? 0)%nat then None
             else
               match rest with
               | EmptyString => Some (neg, i, O)
               | String "." frac =>
                   let '(n', cf, rest') := read_digits frac i 0 in
                   match rest' with
                   | EmptyString => if (cf =? 0)%nat then None else Some (neg, n', cf)
                   | _ => None
                   end
               | _ => None
               end) = Some (neg, Z.to_N n, f)).
  { rewrite (read_digits_stop a ("." +:+ b)) by (auto; reflexivity).
    cbn [Nat.add]. rewrite Hla, append_cons, append_nil.
    destruct (Nat.eqb_spec (k - f) 0) as [H0 | _]; [lia |].
    rewrite <- (append_empty b) at 1.
    rewrite (read_digits_stop b EmptyString) by (auto; exact I).
    cbn [Nat.add]. rewrite Hlb.
    destruct (Nat.eqb_spec f 0) as [H0 | _]; [lia |].
    rewrite <- digits_value_append by exact Ha. now rewrite Hsplit, Hmv. }
  unfold plain_decimal. destruct neg.
  - rewrite append_cons, append_nil. exact Hbody.
  - rewrite append_nil.
    destruct a as [| c a'] eqn:Hae; [cbn in Hla; lia |].
    rewrite append_cons in *.
    assert (Hc : c <> "-"%char).
    { intros ->. cbn in Ha. discriminate Ha. }
    destruct c as [[] [] [] [] [] [] [] []]; try exact Hbody; congruence.
Qed.

(** The number returned after [toFixed]: the quotient, correctly
    rounded, of the nearest integer to [|x| * 10^f] by [10^f], with the
    sign of [x]. *)
Lemma Number_toFixed {rt : Runtime} (f : nat) (x : float) s m e :
  Prim2SF x = S754_finite s m e ->
  (0 < f <= 15)%nat ->
  at_least_1e21 m e = false ->
  scaled_round f m e < 2 ^ 53 ->
  StringToNumber (toFixed f x) =
    let q := (float_of_N (Z.to_N (scaled_round f m e)) /
              float_of_N (10 ^ N.of_nat f))%float in
    if s then (- q)%float else q.
Proof.
  intros Hx Hf Hbig Hn. unfold StringToNumber, toFixed.
  rewrite Hx, Hbig.
  assert (Hpos : 0 <= scaled_round f m e).
  { unfold scaled_round. destruct (0 <=? e) eqn:He.
    - apply Z.mul_nonneg_nonneg; [| apply Z.pow_nonneg]; lia.
    - pose proof (Z.pow_pos_nonneg 2 (- e) ltac:(lia) ltac:(lia)) as H2.
      pose proof (Z.pow_pos_nonneg 10 (Z.of_nat f) ltac:(lia) ltac:(lia)) as H10.
      apply Z.div_pos; [nia | lia]. }
  rewrite plain_decimal_fixed_digits by lia.
  replace (Z.to_N (scaled_round f m e) <? 2 ^ 53)%N with true
    by (symmetry; apply N.ltb_lt; lia).
  replace (f <=? 15)%nat with true by (symmetry; apply Nat.leb_le; lia).
  reflexivity.
Qed.

Example toFixed_rounds_half_up :
  @toFixed exampleRuntime 0 2.5 = "3" /\ @toFixed exampleRuntime 2 (-20.349) = "-20.35" /\
  @toFixed exampleRuntime 2 (-0.001) = "-0.00" /\
  @toFixed exampleRuntime 6 14.7380128912 = "14.738013".
Proof. repeat split. Qed.

(* ===================================================================== *)
(** * Properties of extraction *)
(* ===================================================================== *)

Section ExtractionFacts.
Context {rt : Runtime}.

Lemma index0_elem0 v : nullish v = false -> index0 v = Normal (elem0 v).
Proof. destruct v as [| | | | [| c s] | | |]; try discriminate; reflexivity. Qed.

Lemma first_array_descend v :
  nullish v = false -> first_array v = Normal (descend 1 v).
Proof.
  intros H. unfold first_array. rewrite (index0_elem0 _ H). reflexivity.
Qed.

Lemma array_not_nullish a : Array_isArray a = true -> nullish a = false.
Proof. destruct a; try discriminate; reflexivity. Qed.

Lemma first_array2_descend v :
  nullish v = false -> first_array2 v = Normal (descend 2 v).
Proof.
  intros H. unfold first_array2. rewrite (index0_elem0 _ H). cbn [bind descend].
  destruct (Array_isArray (elem0 v)) eqn:Ha; [| reflexivity].
  now rewrite first_array_descend by now apply array_not_nullish.
Qed.

Lemma first_array3_descend v :
  nullish v = false -> first_array3 v = Normal (descend 3 v).
Proof.
  intros H. unfold first_array3. rewrite (index0_elem0 _ H). cbn [bind].
  change (descend 3 v) with
    (if Array_isArray (elem0 v) then descend 2 (elem0 v) else VNull).
  destruct (Array_isArray (elem0 v)) eqn:Ha; [| reflexivity].
  now rewrite first_array2_descend by now apply array_not_nullish.
Qed.

Lemma truthy_not_nullish v : truthy v = true -> nullish v = false.
Proof. destruct v; try discriminate; reflexivity. Qed.

Lemma descend_null_or_array depth v :
  (0 < depth)%nat -> descend depth v = VNull \/ Array_isArray (descend depth v) = true.
Proof.
  revert v. induction depth as [| d IH]; intros v Hd; [lia |].
  cbn [descend]. destruct (Array_isArray (elem0 v)) eqn:Ha; [| now left].
  destruct d as [| d']; [right; exact Ha | apply IH; lia].
Qed.

(** The conversion of a primitive value to a string does not throw. *)
Lemma ToString_primitive v :
  is_primitive v = true -> ToString v = Normal (primitive_text v).
Proof. destruct v; try discriminate; reflexivity. Qed.

(** An object whose own [toString] and [valueOf], if any, are not
    functions: its conversion to a string throws exactly when it has an
    own [toString]. *)
Lemma ToString_plain_object props :
  (forall f, lookup_prop "toString" props <> VFunction f) ->
  (forall f, lookup_prop "valueOf" props <> VFunction f) ->
  ToString (VObject props) =
    if has_own "toString" props then Throw cannot_convert
    else Normal "[object Object]".
Proof.
  intros Hs Hv. cbn [ToString]. unfold OrdinaryToPrimitive, try_method.
  destruct (has_own "toString" props); [| reflexivity].
  assert (Hv' : (if has_own "valueOf" props
                 then match lookup_prop "valueOf" props with
                      | VFunction f =>
                          let* r := call_method f (VObject props) in
                          Normal (if is_primitive r then Some r else None)
                      | _ => Normal None
                      end
                 else Normal None) = Normal None).
  { destruct (has_own "valueOf" props); [| reflexivity].
    destruct (lookup_prop "valueOf" props) as [| | | | | | | f] eqn:E;
      try reflexivity.
    now destruct (Hv f). }
  destruct (lookup_prop "toString" props) as [| | | | | | | f] eqn:E;
    cbn [bind]; rewrite ?Hv'; try reflexivity.
  now destruct (Hs f).
Qed.

(** The representative of a geometry of an unsupported type is [null]. *)
Lemma unsupported_representative geometry :
  unsupported geometry = true -> representative geometry = VNull.
Proof.
  unfold unsupported, representative. intros H.
  destruct geometry as [| | | | | | props |]; try reflexivity.
  cbn [member] in H.
  destruct (truthy (lookup_prop "coordinates" props)); [| reflexivity].
  destruct (nesting (lookup_prop "type" props)); [| reflexivity].
  rewrite andb_false_r in H. discriminate H.
Qed.

(** Extraction is the representative of the geometry, after the
    conversion of the type to a string on the default branch. *)
Lemma extractCoordinates_eq (geometry : jsval) :
  extractCoordinates geometry =
    if unsupported geometry
    then let* warning := ToString (member geometry "type") in Normal VNull
    else Normal (representative geometry).
Proof.
  unfold extractCoordinates, representative, unsupported.
  destruct geometry as [| | b | n | s | elems | props | f]; try reflexivity.
  - destruct b; reflexivity.
  - cbn [truthy negb getProp bind member]. destruct (number_truthy n); reflexivity.
  - cbn [truthy negb getProp bind member].
    destruct (negb (s =? EmptyString)%string); reflexivity.
  - cbn [truthy negb getProp bind member andb].
    destruct (truthy (lookup_prop "coordinates" props)) eqn:Hc; [| reflexivity].
    cbn [negb]. apply truthy_not_nullish in Hc.
    unfold nesting.
    destruct (lookup_prop "type" props) as [| | | | ty | | |]; try reflexivity.
    cbn [type_is].
    repeat match goal with
    | |- context [String.eqb ty ?name] =>
        destruct (String.eqb_spec ty name) as [-> | _];
        cbn [String.eqb Ascii.eqb Bool.eqb orb]
    end;
    auto using first_array_descend, first_array2_descend, first_array3_descend.
Qed.

(** When extraction returns, it returns the representative. *)
Lemma extractCoordinates_normal geometry c :
  extractCoordinates geometry = Normal c -> c = representative geometry.
Proof.
  rewrite extractCoordinates_eq.
  destruct (unsupported geometry) eqn:Hu; [| now intros [= <-]].
  rewrite (unsupported_representative _ Hu).
  destruct (ToString _); [now intros [= <-] | discriminate].
Qed.

(** A truthy value is extracted exactly when it is the representative. *)
Lemma extractCoordinates_truthy geometry c :
  truthy c = true ->
  extractCoordinates geometry = Normal c <-> representative geometry = c.
Proof.
  intros Hc. split; [intros H; symmetry; now apply extractCoordinates_normal |].
  intros <-. rewrite extractCoordinates_eq.
  destruct (unsupported geometry) eqn:Hu; [| reflexivity].
  rewrite (unsupported_representative _ Hu) in Hc. discriminate Hc.
Qed.

(** C5, as the code has it. As long as the type of the geometry is one
    of the six names, or any value that converts to a string (every
    primitive value does), extraction does not throw. It answers [null]
    for a falsy geometry, falsy coordinates or an unsupported type;
    otherwise the coordinates themselves for a Point, and for the other
    types the first element taken one, two or three levels down, each
    level being required to be an array. The value found is returned as
    it is: for a Point any truthy value, for the other types an array of
    any length and content. *)
Theorem extractCoordinates_representative (geometry : jsval) :
  (unsupported geometry = false \/
   is_primitive (member geometry "type") = true \/
   returns (ToString (member geometry "type")) ->
   extractCoordinates geometry = Normal (representative geometry)) /\
  (forall props depth,
     geometry = VObject props ->
     nesting (lookup_prop "type" props) = Some depth -> (0 < depth)%nat ->
     representative geometry = VNull \/
     Array_isArray (representative geometry) = true) /\
  (forall props,
     geometry = VObject props ->
     nesting (lookup_prop "type" props) = Some 0%nat ->
     truthy (lookup_prop "coordinates" props) = true ->
     representative geometry = lookup_prop "coordinates" props).
Proof.
  split; [| split].
  - intros H. rewrite extractCoordinates_eq.
    destruct (unsupported geometry) eqn:Hu; [| reflexivity].
    rewrite (unsupported_representative _ Hu).
    destruct H as [H | [H | [s H]]]; [discriminate H | |].
    + now rewrite (ToString_primitive _ H).
    + now rewrite H.
  - intros props depth -> Hn Hd. cbn [representative]. rewrite Hn.
    destruct (truthy _); [now apply descend_null_or_array | now left].
  - intros props -> Hn Hc. cbn [representative]. now rewrite Hn, Hc.
Qed.

End ExtractionFacts.

(** A LineString: the first position is the representative. *)
Lemma extractCoordinates_representative_witness :
  @extractCoordinates exampleRuntime
    (VObject [("type", VString "LineString");
              ("coordinates",
               VArray [VArray [VNumber (-17.44)%float; VNumber 14.69%float];
                       VArray [VNumber (-17.43)%float; VNumber 14.7%float]])]) =
  Normal (VArray [VNumber (-17.44)%float; VNumber 14.69%float]).
Proof.
  apply (proj1 (@extractCoordinates_representative exampleRuntime
    (VObject [("type", VString "LineString");
              ("coordinates",
               VArray [VArray [VNumber (-17.44)%float; VNumber 14.69%float];
                       VArray [VNumber (-17.43)%float; VNumber 14.7%float]])]))).
  left. reflexivity.
Defined.

(** A GeoJSON Point with an altitude: the three numbers are returned.
    A geometry whose type is an object with an own [toString] that is not
    a function: the warning of the default branch throws, whatever the
    host. *)
Lemma extractCoordinates_not_always_a_pair :
  ~ (forall (rt : Runtime) geometry, exists r,
       extractCoordinates geometry = Normal r /\ (r = VNull \/ is_pair r)) /\
  (forall rt : Runtime,
     extractCoordinates
       (VObject [("type", VObject [("toString", VNumber 1%float)]);
                 ("coordinates", VArray [VNumber 1%float; VNumber 2%float])]) =
     Throw cannot_convert).
Proof.
  split; [| reflexivity].
  intros H.
  destruct (H exampleRuntime
              (VObject [("type", VString "Point");
                        ("coordinates",
                         VArray [VNumber (-17.44)%float; VNumber 14.69%float;
                                 VNumber 25%float])]))
    as (r & Hr & [Hnull | (x & y & Hpair)]);
    cbv in Hr; injection Hr as <-.
  - discriminate Hnull.
  - discriminate Hpair.
Qed.

Example extractCoordinates_supported_types (rt : Runtime) :
  let pos := VArray [VNumber 1%float; VNumber 2%float] in
  let geom ty c := VObject [("type", VString ty); ("coordinates", c)] in
  extractCoordinates (geom "Point" pos) = Normal pos /\
  extractCoordinates (geom "LineString" (VArray [pos; pos])) = Normal pos /\
  extractCoordinates (geom "MultiPoint" (VArray [pos])) = Normal pos /\
  extractCoordinates (geom "Polygon" (VArray [VArray [pos; pos]])) = Normal pos /\
  extractCoordinates (geom "MultiLineString" (VArray [VArray [pos]])) = Normal pos /\
  extractCoordinates (geom "MultiPolygon" (VArray [VArray [VArray [pos]]])) = Normal pos /\
  extractCoordinates (geom "GeometryCollection" (VArray [pos])) = Normal VNull /\
  extractCoordinates (geom "Polygon" (VArray [VNumber 1%float])) = Normal VNull /\
  extractCoordinates VNull = Normal VNull.
Proof. repeat split. Qed.

(** [Number] and the conversion to a string on small values, whatever
    the host: an object with an own [toString] that is not a function
    cannot be converted, an empty object can, and an array is as
    convertible as its elements. *)
Example Number_of_objects (rt : Runtime) :
  Number (VObject [("toString", VNumber 1%float)]) = Throw cannot_convert /\
  Number (VObject [("toString", VNull)]) = Throw cannot_convert /\
  Number (VObject [("valueOf", VNumber 1%float)]) =
    Normal (StringToNumber "[object Object]") /\
  Number (VObject []) = Normal (StringToNumber "[object Object]") /\
  Number (VArray []) = Normal (StringToNumber EmptyString) /\
  Number (VArray [VString "12"]) = Normal 12%float /\
  Number (VArray [VNumber 5%float]) = Normal 5%float /\
  ToString (VArray [VNumber (-17)%float; VNumber 1400000%float; VNumber 0%float]) =
    Normal "-17,1400000,0" /\
  Number (VArray [VObject [("toString", VNumber 1%float)]]) = Throw cannot_convert /\
  Number (VArray [VNull; VString "a"]) = Normal (StringToNumber ",a") /\
  ToString (VObject [("toString", VNumber 1%float)]) = Throw cannot_convert /\
  ToString (VArray [VString "a"; VArray [VString "b"; VUndefined]; VString "c"]) =
    Normal "a,b,,c" /\
  member (VArray []) "shift" = VFunction "shift" /\
  member (VArray []) "name" = VUndefined /\
  member (VFunction "shift") "name" = VString "shift".
Proof. repeat split. Qed.

(* ===================================================================== *)
(** * Properties of the batch mapper *)
(* ===================================================================== *)

Section MapperFacts.
Context {rt : Runtime}.

Lemma getProp_member v k : nullish v = false -> getProp v k = Normal (member v k).
Proof. destruct v; try discriminate; reflexivity. Qed.

Lemma getProp_normal v k a : getProp v k = Normal a -> nullish v = false.
Proof. destruct v; try discriminate; reflexivity. Qed.

Lemma prop_propOf feature k :
  nullish feature = false -> prop feature k = Normal (propOf feature k).
Proof.
  intros H. unfold prop, propOf. rewrite (getProp_member _ _ H). cbn [bind].
  destruct (nullish (member feature "properties")) eqn:Hp; [reflexivity |].
  now apply getProp_member.
Qed.

(** ** Alias chains *)

Lemma js_or_pick vs a b : Normal (pick vs a) ||| Normal b = Normal (pick (vs ++ [a]) b).
Proof.
  induction vs as [| v vs IH]; cbn [pick app].
  - unfold js_or. cbn [bind]. now destruct (truthy a).
  - destruct (truthy v) eqn:Hv; [| exact IH].
    unfold js_or. cbn [bind]. now rewrite Hv.
Qed.

Lemma js_or_pick2 a b : Normal a ||| Normal b = Normal (pick [a] b).
Proof. exact (js_or_pick [] a b). Qed.

Lemma js_or_pick3 a b c : Normal a ||| Normal b ||| Normal c = Normal (pick [a; b] c).
Proof. rewrite js_or_pick2. exact (js_or_pick [a] b c). Qed.

Lemma js_or_pick4 a b c d :
  Normal a ||| Normal b ||| Normal c ||| Normal d = Normal (pick [a; b; c] d).
Proof. rewrite js_or_pick3. exact (js_or_pick [a; b] c d). Qed.

Lemma js_or_pick5 a b c d e :
  Normal a ||| Normal b ||| Normal c ||| Normal d ||| Normal e =
  Normal (pick [a; b; c; d] e).
Proof. rewrite js_or_pick4. exact (js_or_pick [a; b; c] d e). Qed.

(** The row that [buildRecord] builds is the row given field by field by
    the alias lists, and [buildRecord] throws when a numeric field cannot
    be read. *)
Lemma buildRecord_rowByAliases w tbl feature index lon lat :
  nullish feature = false ->
  buildRecord w tbl feature index lon lat =
    let* row := rowByAliases w tbl feature index lon lat in Normal (Some row).
Proof.
  intros Hf. unfold buildRecord, rowByAliases, getName, getStatus, lit.
  rewrite !(prop_propOf feature) by exact Hf.
  rewrite ?js_or_pick5, ?js_or_pick4, ?js_or_pick3, ?js_or_pick2.
  cbn [bind]. destruct tbl; cbn [bind].
  - destruct (Number_or_0 _); reflexivity.
  - destruct (Number_or_0 _); reflexivity.
  - destruct (Number_or_0 _); [cbn [bind] | reflexivity].
    destruct (Number_or_0 _); reflexivity.
Qed.

Lemma Number_or_0_returns v :
  match Number v with
  | Normal n => Number_or_0 v = Normal (VNumber (if number_truthy n then n else 0%float))
  | Throw e => Number_or_0 v = Throw e
  end.
Proof. unfold Number_or_0. destruct (Number v); reflexivity. Qed.

(** The row can be built exactly when no numeric field throws. *)
Lemma rowByAliases_builds w tbl feature index lon lat :
  builds tbl feature =
    match rowByAliases w tbl feature index lon lat with
    | Normal _ => true
    | Throw _ => false
    end.
Proof.
  unfold builds, numbered, rowByAliases. destruct tbl; cbn [forallb].
  - pose proof (Number_or_0_returns
      (pick [propOf feature "capacity_kg"; propOf feature "capacite_kg"]
            (propOf feature "CAPACITY_KG"))) as H.
    destruct (Number _); rewrite H; reflexivity.
  - pose proof (Number_or_0_returns
      (pick [propOf feature "capacity_kg"; propOf feature "capacite_kg"]
            (propOf feature "CAPACITY_KG"))) as H.
    destruct (Number _); rewrite H; reflexivity.
  - pose proof (Number_or_0_returns
      (pick [propOf feature "length_meters"; propOf feature "longueur_m";
             propOf feature "LENGTH_METERS"] (propOf feature "LONGUEUR_M"))) as H1.
    pose proof (Number_or_0_returns
      (pick [propOf feature "estimated_duration_minutes";
             propOf feature "duree_estimee_min"; propOf feature "ESTIMATED_DURATION"]
            (propOf feature "DUREE_ESTIMEE"))) as H2.
    destruct (Number _); rewrite H1; [cbn [bind andb] | reflexivity].
    destruct (Number _); rewrite H2; reflexivity.
Qed.

(** ** Which features convert *)

Lemma converts_not_nullish feature c : converts feature = Some c -> nullish feature = false.
Proof.
  unfold converts. destruct (getProp feature "geometry") eqn:Hg; [| discriminate].
  intros _. now apply getProp_normal in Hg.
Qed.

(** A feature converts exactly when the representative position of its
    geometry starts with two numbers and the pair is geographic, or is
    projected into the box of Senegal; the source system is the system
    detected for the pair. *)
Lemma converts_spec feature lon lat sys :
  converts feature = Some (lon, lat, sys) <->
  exists geometry x y rest,
    getProp feature "geometry" = Normal geometry /\
    representative geometry = VArray (VNumber x :: VNumber y :: rest) /\
    sys = Some (detectCoordinateSystem x y) /\
    ((detectCoordinateSystem x y = "EPSG:4326" /\ lon = x /\ lat = y) \/
     (detectCoordinateSystem x y <> "EPSG:4326" /\
      exists lon' lat',
        proj4 (detectCoordinateSystem x y) "EPSG:4326" (x, y) = Normal (lon', lat') /\
        inside (-17.8) (-11.2) lon' /\ inside 12.0 16.8 lat' /\
        lon = StringToNumber (toFixed 6 lon') /\
        lat = StringToNumber (toFixed 6 lat'))).
Proof.
  unfold converts. split.
  - destruct (getProp feature "geometry") as [geometry | e] eqn:Hg; [| discriminate].
    cbn [bind].
    destruct (extractCoordinates geometry) as [c | e] eqn:He; [| discriminate].
    cbn [bind]. destruct (truthy c) eqn:Ht; [| discriminate]. cbn [negb].
    apply (extractCoordinates_truthy _ _ Ht) in He.
    destruct c as [| | b | n | s | elems | props | f]; try discriminate.
    destruct elems as [| vx [| vy rest]]; try discriminate.
    destruct vx as [| | | x | | | |]; try discriminate.
    destruct vy as [| | | y | | | |]; try discriminate.
    intros H. exists geometry, x, y, rest. split; [reflexivity |]. split; [assumption |].
    destruct (convertCoordinates_pair x y rest)
      as [[Hgeo Hc] | [Hgeo [(e & _ & Hc) | [(lon' & lat' & _ & _ & Hc)
                                           | (lon' & lat' & Hp & Hw & Hc)]]]];
      cbv zeta in Hc; rewrite Hc in H; cbn in H; try discriminate H.
    + injection H as <- <- <-. rewrite Hgeo at 1. split; [reflexivity |]. left. auto.
    + injection H as <- <- <-. split; [reflexivity |]. right. split; [assumption |].
      apply within_inside in Hw as [Hlon Hlat]. exists lon', lat'. auto.
  - intros (geometry & x & y & rest & Hg & Hr & -> & H).
    rewrite Hg. cbn [bind].
    rewrite (proj2 (extractCoordinates_truthy geometry
                      (VArray (VNumber x :: VNumber y :: rest)) eq_refl) Hr).
    cbn [bind truthy negb].
    destruct (convertCoordinates_pair x y rest)
      as [[Hgeo Hc] | [Hgeo [(e & Hp & Hc) | [(lon' & lat' & Hp & Hw & Hc)
                                            | (lon' & lat' & Hp & Hw & Hc)]]]];
      cbv zeta in Hc; rewrite Hc; cbn [bind];
      destruct H as [(Hgeo' & -> & ->) | (Hgeo' & lon2 & lat2 & Hp' & Hlon & Hlat & -> & ->)];
      try contradiction; try congruence.
    + cbn. now rewrite Hgeo.
    + rewrite Hp in Hp'. injection Hp' as <- <-.
      rewrite (proj2 (within_inside _ _) (conj Hlon Hlat)) in Hw. discriminate Hw.
    + rewrite Hp in Hp'. injection Hp' as <- <-. reflexivity.
Qed.

(** The source system of a converted feature is an identifier of the
    catalogue. *)
Lemma converts_sourceSystem feature lon lat sys :
  converts feature = Some (lon, lat, sys) -> exists s, sys = Some s /\ In s catalogue.
Proof.
  intros H. apply converts_spec in H as (geometry & x & y & rest & _ & _ & -> & _).
  exists (detectCoordinateSystem x y). split; [reflexivity |].
  destruct (detectCoordinateSystem_catalogue x y) as [H | [H | [H | H]]];
    rewrite H; cbn; auto.
Qed.

(** ** One feature *)

Lemma mapFeature_step w tbl feature index st :
  mapFeature w tbl feature index st =
    (countFeature tbl st feature, Normal (rowOf w tbl feature index)).
Proof.
  unfold mapFeature, countFeature, rowOf, converts, catch, seq, lift, update, ret.
  destruct (getProp feature "geometry") as [geometry | e] eqn:Hg; [| reflexivity].
  cbn [bind]. destruct (extractCoordinates geometry) as [c | e]; [| reflexivity].
  cbn [bind]. destruct (truthy c); [| reflexivity].
  cbn [negb]. destruct (convertCoordinates_returns c) as [r ->].
  cbn [bind]. destruct (longitude r) as [lon |]; [| reflexivity].
  destruct (latitude r) as [lat |]; [| reflexivity].
  rewrite (rowByAliases_builds w tbl feature index lon lat).
  rewrite buildRecord_rowByAliases by now apply getProp_normal in Hg.
  destruct (rowByAliases w tbl feature index lon lat); reflexivity.
Qed.

Lemma rowOf_rowAt w tbl feature index : rowOf w tbl feature index = rowAt w tbl index feature.
Proof.
  unfold rowOf, rowAt. destruct (converts feature) as [[[lon lat] sys] |] eqn:Hc;
    [| reflexivity].
  rewrite buildRecord_rowByAliases by (eapply converts_not_nullish; eassumption).
  destruct (rowByAliases w tbl feature index lon lat); reflexivity.
Qed.

(** A feature yields a row exactly when it converts and its row can be
    built. *)
Lemma rowOf_yields w tbl feature index :
  is_Some (rowOf w tbl feature index) <-> yields_row tbl feature = true.
Proof.
  rewrite rowOf_rowAt. unfold rowAt, yields_row, converted_ok.
  destruct (converts feature) as [[[lon lat] sys] |]; cbn [andb].
  - rewrite (rowByAliases_builds w tbl feature index lon lat).
    destruct (rowByAliases w tbl feature index lon lat); split;
      intros H; try discriminate H; eauto.
    destruct H as [row H]. discriminate H.
  - split; intros H; [destruct H as [row H] |]; discriminate H.
Qed.

Lemma mapFrom_spec w tbl features : forall index st,
  mapFrom w tbl features index st =
    (fold_left (countFeature tbl) features st, Normal (rowsFrom w tbl features index)).
Proof.
  induction features as [| feature rest IH]; intros index st; [reflexivity |].
  cbn [mapFrom fold_left rowsFrom]. unfold seq at 1.
  rewrite mapFeature_step. unfold seq at 1. rewrite IH. reflexivity.
Qed.

Lemma mapFeatures_spec w tbl features :
  mapFeatures w tbl features =
    (fold_left (countFeature tbl) features (initialStats features),
     Normal (nonNull (rowsFrom w tbl features 0))).
Proof. unfold mapFeatures. rewrite mapFrom_spec. reflexivity. Qed.

Lemma catalogue_truthy s : In s catalogue -> truthy (VString s) = true.
Proof. cbn. intros [<- | [<- | [<- | [<- | []]]]]; reflexivity. Qed.

Lemma systems_sum_incr (m : gmap string nat) s :
  systems_sum (<[s := S (default O (m !! s))]> m) = S (systems_sum m).
Proof.
  unfold systems_sum.
  destruct (m !! s) as [n |] eqn:Hs; cbn [default].
  - rewrite <- insert_delete_eq.
    rewrite map_fold_insert_L; [| intros; lia | apply lookup_delete_eq].
    rewrite (map_fold_delete_L _ _ s n m); [unfold id; lia | intros; lia | exact Hs].
  - rewrite map_fold_insert_L; [lia | intros; lia | exact Hs].
Qed.

(** A feature that does not convert moves [failed] only. A feature that
    converts moves [success] and the entry of its source system, and
    [failed] as well when its row cannot be built. *)
Lemma countFeature_cases tbl st feature :
  (converts feature = None /\
   countFeature tbl st feature = failed_incr st) \/
  (exists lon lat s,
     converts feature = Some (lon, lat, Some s) /\ In s catalogue /\
     countFeature tbl st feature =
       {| total := total st; success := S (success st);
          failed := if builds tbl feature then failed st else S (failed st);
          systems := <[s := S (default O (systems st !! s))]> (systems st) |}).
Proof.
  unfold countFeature.
  destruct (converts feature) as [[[lon lat] sys] |] eqn:Hc; [right | left; auto].
  destruct (converts_sourceSystem _ _ _ _ Hc) as (s & -> & Hs).
  exists lon, lat, s. repeat split; [assumption |].
  unfold systems_incr. rewrite (catalogue_truthy s Hs).
  destruct (builds tbl feature); reflexivity.
Qed.

Lemma nonNull_cons (item : option record) items :
  nonNull (item :: items) =
    match item with
    | Some row => row :: nonNull items
    | None => nonNull items
    end.
Proof. destruct item; reflexivity. Qed.

(** ** A batch *)

(** Every feature is in the rows or counted as failed; a row is counted
    as a success; the counters of [systems] move with [success]. *)
Lemma fold_countFeature w tbl features : forall index st,
  let st' := fold_left (countFeature tbl) features st in
  let rows := nonNull (rowsFrom w tbl features index) in
  total st' = total st /\
  (failed st' + length rows = failed st + length features)%nat /\
  (success st + length rows <= success st')%nat /\
  (success st' <= success st + length features)%nat /\
  (systems_sum (systems st') + success st = systems_sum (systems st) + success st')%nat.
Proof.
  induction features as [| feature rest IH]; intros index st; cbv zeta.
  - cbn. repeat split; lia.
  - cbn [fold_left rowsFrom length]. rewrite nonNull_cons.
    destruct (IH (S index) (countFeature tbl st feature)) as (Ht & Hf & Hs & Hs' & Hsum).
    clear IH.
    pose proof (rowOf_yields w tbl feature index) as Hrow.
    unfold yields_row, converted_ok in Hrow.
    destruct (countFeature_cases tbl st feature)
      as [[Hc E] | (lon & lat & s & Hc & Hin & E)];
      rewrite E in *; clear E; rewrite Hc in Hrow; cbn [andb] in Hrow.
    + destruct (rowOf w tbl feature index) as [row |] eqn:Hr.
      * assert (H : false = true) by (apply Hrow; eauto). discriminate H.
      * cbn [total success failed systems failed_incr length] in *.
        repeat split; lia.
    + cbn [total success failed systems length] in *.
      rewrite systems_sum_incr in Hsum.
      destruct (builds tbl feature).
      * destruct (proj2 Hrow eq_refl) as [row ->]. cbn [length].
        repeat split; lia.
      * destruct (rowOf w tbl feature index) as [row |] eqn:Hr.
        -- assert (H : false = true) by (apply Hrow; eauto). discriminate H.
        -- repeat split; lia.
Qed.

(** What a call that returns has gone through. *)
Lemma uploadGeoJSONWithProj4_returns w geojson tbl r :
  uploadGeoJSONWithProj4 w geojson tbl = Normal r ->
  exists features,
    getProp geojson "features" = Normal (VArray features) /\
    features <> [] /\
    stats r = (mapFeatures w tbl features).1 /\
    (mapFeatures w tbl features).2 = Normal (nonNull (rowsFrom w tbl features 0)) /\
    count r = length (nonNull (rowsFrom w tbl features 0)) /\
    (0 < count r)%nat /\
    skipped r = failed (stats r).
Proof.
  unfold uploadGeoJSONWithProj4, try_catch.
  destruct (negb (truthy geojson) || negb (typeof_object geojson)); [discriminate |].
  destruct (getProp geojson "type") as [type |]; [| discriminate]. cbn [bind].
  destruct (negb (type_is type "FeatureCollection")); [discriminate |].
  destruct (getProp geojson "features") as [features |]; [| discriminate]. cbn [bind].
  destruct features as [| | | | | features | |]; try discriminate.
  destruct features as [| feature rest]; [discriminate |].
  set (features := feature :: rest). cbn [length Nat.eqb].
  rewrite mapFeatures_spec. cbn [bind].
  destruct (nonNull (rowsFrom w tbl features 0)) as [| row rows] eqn:Hrows;
    [discriminate |].
  cbn [length Nat.eqb].
  destruct (reply_error _); [discriminate |].
  intros H. inversion H; subst r; clear H. cbn [stats count skipped fst snd].
  exists features. rewrite mapFeatures_spec, Hrows.
  repeat split; try reflexivity; try discriminate. lia.
Qed.

(** C7 at an input that breaks it, whatever the host: a collection of
    two points of Dakar, the first with a capacity that is an object with
    an own [toString] that is not a function. The first feature converts
    and is counted as a success; building its row throws, and the catch
    counts it as failed as well. The call returns one row with [success]
    2 and [failed] 1 for a [total] of 2: the two counters do not add up
    to [total], and [count] is not [success]. *)
Theorem uploadGeoJSONWithProj4_counts_twice (stamp : string) :
  exists r,
    uploadGeoJSONWithProj4 (exampleWorld stamp)
      (featureCollection [unbuildableFeature; pointFeature (-17.44) 14.69 []])
      collection_points = Normal r /\
    (total (stats r) = 2 /\ success (stats r) = 2 /\ failed (stats r) = 1 /\
     count r = 1 /\ skipped r = 1)%nat /\
    (success (stats r) + failed (stats r) <> total (stats r))%nat /\
    count r <> success (stats r).
Proof.
  destruct (uploadGeoJSONWithProj4 (exampleWorld stamp)
              (featureCollection [unbuildableFeature; pointFeature (-17.44) 14.69 []])
              collection_points) as [r | e] eqn:Hr;
    vm_compute in Hr; [| discriminate Hr].
  injection Hr as <-. exists
    {| data := VNull; count := 1; skipped := 1;
       stats := {| total := 2; success := 2; failed := 1;
                   systems := <["EPSG:4326" := 2%nat]> ∅ |} |}.
  split; [vm_compute; reflexivity |].
  cbn [stats total success failed count skipped]. repeat split; lia.
Qed.

(** C6. The four structural checks are made in order, each answered
    with a message of its own, whatever the features, the host and the
    outside world are: nothing has been mapped or counted by then. When
    every feature has been mapped and no row is left, a fifth message is
    thrown; a call that returns has at least one row. *)
Theorem uploadGeoJSONWithProj4_validation (w : World) (geojson : jsval) (tbl : table) :
  let result := uploadGeoJSONWithProj4 w geojson tbl in
  (truthy geojson = false \/ typeof_object geojson = false ->
   result = Throw (Error notAnObject)) /\
  (truthy geojson = true -> typeof_object geojson = true ->
   getProp geojson "type" <> Normal (VString "FeatureCollection") ->
   result = Throw (Error notACollection)) /\
  (forall features,
     getProp geojson "type" = Normal (VString "FeatureCollection") ->
     getProp geojson "features" = Normal features ->
     Array_isArray features = false ->
     result = Throw (Error noFeaturesArray)) /\
  (getProp geojson "type" = Normal (VString "FeatureCollection") ->
   getProp geojson "features" = Normal (VArray []) ->
   result = Throw (Error emptyFeatures)) /\
  (forall features,
     getProp geojson "type" = Normal (VString "FeatureCollection") ->
     getProp geojson "features" = Normal (VArray features) ->
     features <> [] ->
     (mapFeatures w tbl features).2 = Normal [] ->
     result = Throw (Error noValidFeature)) /\
  (forall r, result = Normal r -> (0 < count r)%nat) /\
  NoDup [notAnObject; notACollection; noFeaturesArray; emptyFeatures; noValidFeature].
Proof.
  cbv zeta. unfold uploadGeoJSONWithProj4, try_catch.
  assert (Hobj : forall ty, getProp geojson "type" = Normal (VString ty) ->
                 negb (truthy geojson) || negb (typeof_object geojson) = false).
  { intros ty H. destruct geojson; try discriminate H; reflexivity. }
  split; [| split; [| split; [| split; [| split; [| split]]]]].
  - intros [H | H]; rewrite H; cbn [negb orb]; [reflexivity |].
    now rewrite orb_true_r.
  - intros Ht Ho Hty.
    destruct geojson as [| | | | | elems | props |];
      try discriminate Ho; try discriminate Ht;
      cbn [truthy typeof_object negb orb getProp bind member] in *; [reflexivity |].
    destruct (lookup_prop "type" props) as [| | | | ty | | |]; try reflexivity.
    cbn [type_is]. destruct (String.eqb_spec ty "FeatureCollection") as [-> | Hne];
      [congruence | reflexivity].
  - intros features Hty Hfs Harr. rewrite (Hobj _ Hty), Hty, Hfs. cbn [bind type_is].
    destruct features; try discriminate Harr; reflexivity.
  - intros Hty Hfs. rewrite (Hobj _ Hty), Hty, Hfs. reflexivity.
  - intros features Hty Hfs Hne Hrows. rewrite (Hobj _ Hty), Hty, Hfs. cbn [bind type_is].
    destruct features as [| feature rest]; [congruence |]. cbn [length Nat.eqb].
    destruct (mapFeatures w tbl (feature :: rest)) as [st rows]. cbn [snd] in Hrows.
    rewrite Hrows. reflexivity.
  - intros r Hr.
    destruct (uploadGeoJSONWithProj4_returns w geojson tbl r) as (_ & _ & _ & _ & _ & _ & H & _);
      [exact Hr | exact H].
  - apply (bool_decide_unpack _). vm_compute. exact I.
Qed.

(** C10 at an input that breaks it, whatever the host and the outside
    world: a point of Dakar whose capacity is an object with an own
    [toString] that is not a function. The feature converts and the entry
    of EPSG:4326 is created for it; building its row then throws, the
    catch counts the feature as failed and it yields no row. A feature
    counted as failed has changed [systems]. *)
Theorem failed_feature_changes_systems (w : World) :
  let st0 := initialStats [unbuildableFeature] in
  let outcome := mapFeature w collection_points unbuildableFeature 0 st0 in
  outcome.2 = Normal None /\
  failed outcome.1 = S (failed st0) /\
  systems st0 !! "EPSG:4326" = None /\
  systems outcome.1 !! "EPSG:4326" = Some 1%nat /\
  uploadGeoJSONWithProj4 w (featureCollection [unbuildableFeature]) collection_points =
    Throw (Error noValidFeature).
Proof. cbv zeta. repeat split. Qed.

(** The default of an alias chain does not matter when the chain before
    it yields a truthy value or throws. *)
Lemma js_or_default_unused a x y :
  ~ (exists v, a = Normal v /\ truthy v = false) -> a ||| lit x = a ||| lit y.
Proof.
  intros H. unfold js_or. destruct a as [v | e]; cbn [bind]; [| reflexivity].
  destruct (truthy v) eqn:Hv; [reflexivity |]. exfalso. eauto.
Qed.

Lemma buildRecord_clock w1 w2 tbl feature index lon lat :
  tbl <> urban_furniture \/ ~ needs_clock feature \/ now w1 index = now w2 index ->
  buildRecord w1 tbl feature index lon lat = buildRecord w2 tbl feature index lon lat.
Proof.
  intros H. destruct tbl; try reflexivity.
  destruct H as [H | [H | H]]; [congruence | |]; unfold buildRecord.
  - fold (installDate feature).
    now rewrite (js_or_default_unused (installDate feature) _ (VString (now w2 index))).
  - now rewrite H.
Qed.

Lemma rowsFrom_clock w1 w2 tbl features : forall index,
  (forall k feature, features !! k = Some feature ->
     tbl <> urban_furniture \/ ~ needs_clock feature \/
     now w1 (index + k)%nat = now w2 (index + k)%nat) ->
  rowsFrom w1 tbl features index = rowsFrom w2 tbl features index.
Proof.
  induction features as [| feature rest IH]; intros index H; [reflexivity |].
  cbn [rowsFrom]. f_equal.
  - unfold rowOf. destruct (converts feature) as [[[lon lat] sys] |]; [| reflexivity].
    rewrite (buildRecord_clock w1 w2 tbl feature index lon lat); [reflexivity |].
    specialize (H 0%nat feature eq_refl). now rewrite Nat.add_0_r in H.
  - apply IH. intros k f Hk. specialize (H (S k) f Hk).
    now replace (S index + k)%nat with (index + S k)%nat by lia.
Qed.

(** C8, as the code has it. Two calls on the same features may see
    different clocks. Their statistics are the same; their rows are the
    same for collection points and sweeping routes, and for urban
    furniture as long as every feature either carries a truthy
    installation date alias or is mapped under the same clock reading in
    both calls. *)
Theorem mapFeatures_repeatable (w1 w2 : World) (tbl : table) (features : list jsval) :
  (mapFeatures w1 tbl features).1 = (mapFeatures w2 tbl features).1 /\
  ((forall index feature,
      features !! index = Some feature ->
      tbl <> urban_furniture \/ ~ needs_clock feature \/ now w1 index = now w2 index) ->
   mapFeatures w1 tbl features = mapFeatures w2 tbl features).
Proof.
  rewrite !mapFeatures_spec. split; [reflexivity |].
  intros H. f_equal. f_equal. f_equal. apply rowsFrom_clock.
  intros k feature Hk. cbn [Nat.add]. now apply H.
Qed.

(** The coordinates of a sweeping route row are there exactly when both
    numbers are truthy. *)
Lemma sweeping_route_coordinates w feature index lon lat row :
  buildRecord w sweeping_routes feature index lon lat = Normal (Some row) ->
  if number_truthy lon && number_truthy lat
  then lookup_prop "latitude" row = VNumber lat /\
       lookup_prop "longitude" row = VNumber lon
  else lookup_prop "latitude" row = VUndefined /\
       lookup_prop "longitude" row = VUndefined.
Proof.
  unfold buildRecord. intros H.
  repeat match type of H with
  | bind ?c _ = _ => destruct c; [cbn [bind] in H | discriminate H]
  end.
  injection H as <-.
  destruct (number_truthy lon && number_truthy lat); split; reflexivity.
Qed.

(** C9 at the input that breaks it: a Point on the Greenwich meridian
    converts (longitude 0, latitude 45, geographic) and is counted as a
    success, but its sweeping route row has neither [latitude] nor
    [longitude], while the row built for a collection point has both. *)
Theorem sweeping_route_drops_zero_longitude (w : World) :
  let feature := pointFeature 0 45 [] in
  converts feature = Some (0%float, 45%float, Some "EPSG:4326") /\
  success (mapFeatures w sweeping_routes [feature]).1 = 1%nat /\
  (exists row,
     (mapFeatures w sweeping_routes [feature]).2 = Normal [row] /\
     lookup_prop "latitude" row = VUndefined /\
     lookup_prop "longitude" row = VUndefined) /\
  (exists row,
     (mapFeatures w collection_points [feature]).2 = Normal [row] /\
     lookup_prop "latitude" row = VNumber 45%float /\
     lookup_prop "longitude" row = VNumber 0%float).
Proof.
  cbv zeta. split; [reflexivity |]. split; [reflexivity |].
  split; eexists; (split; [reflexivity |]); split; reflexivity.
Qed.

End MapperFacts.

(** Two calls one second apart on a bench without installation date. *)
Lemma mapFeatures_depends_on_clock :
  ~ (forall (rt : Runtime) (w1 w2 : World) (tbl : table) (features : list jsval),
       mapFeatures w1 tbl features = mapFeatures w2 tbl features).
Proof.
  intros H.
  specialize (H exampleRuntime (exampleWorld "2025-06-01T08:00:00.000Z")
                (exampleWorld "2025-06-01T08:00:01.000Z") urban_furniture
                [pointFeature (-17.44) 14.69 [("nom", VString "Banc")]]).
  apply (f_equal snd) in H. vm_compute in H. discriminate H.
Qed.

(** The same two calls on a bench that carries its installation date
    give the same rows. *)
Lemma mapFeatures_repeatable_witness :
  @mapFeatures exampleRuntime (exampleWorld "2025-06-01T08:00:00.000Z") urban_furniture
    [pointFeature (-17.44) 14.69 [("install_date", VString "2020-01-15")]] =
  @mapFeatures exampleRuntime (exampleWorld "2025-06-01T08:00:01.000Z") urban_furniture
    [pointFeature (-17.44) 14.69 [("install_date", VString "2020-01-15")]].
Proof.
  apply (@mapFeatures_repeatable exampleRuntime).
  intros [| index] feature Hf; [| discriminate Hf].
  cbn in Hf. injection Hf as <-. right; left.
  intros (v & Hv & Ht). vm_compute in Hv. injection Hv as <-. discriminate Ht.
Defined.

(** A batch whose only feature is malformed. *)
Lemma uploadGeoJSONWithProj4_validation_witness :
  @uploadGeoJSONWithProj4 exampleRuntime (exampleWorld "2025-06-01T08:00:00.000Z")
    (featureCollection [malformedFeature]) sweeping_routes =
  Throw (Error noValidFeature).
Proof.
  refine (proj1 (proj2 (proj2 (proj2 (proj2
    (@uploadGeoJSONWithProj4_validation exampleRuntime _ _ _))))) [malformedFeature] _ _ _ _).
  - reflexivity.
  - reflexivity.
  - discriminate.
  - reflexivity.
Defined.

(* ===================================================================== *)
(** * The order of binary64 numbers *)
(* ===================================================================== *)

Section FloatOrder.
#[local] Open Scope float_scope.

#[local] Ltac sf_destruct :=
  repeat match goal with
  | x : spec_float |- _ => destruct x as [[] | [] | | [] ? ?]
  end.

#[local] Ltac sf_compare :=
  cbn [SFleb SFltb SFeqb SFcompare CompOpp] in *;
  repeat match goal with
  | H : context [Z.compare ?a ?b] |- _ => destruct (Z.compare_spec a b)
  | |- context [Z.compare ?a ?b] => destruct (Z.compare_spec a b)
  end;
  repeat match goal with
  | H : context [Pos.compare_cont Eq ?a ?b] |- _ =>
      change (Pos.compare_cont Eq a b) with (Pos.compare a b) in H;
      destruct (Pos.compare_spec a b)
  | |- context [Pos.compare_cont Eq ?a ?b] =>
      change (Pos.compare_cont Eq a b) with (Pos.compare a b);
      destruct (Pos.compare_spec a b)
  end;
  cbn [CompOpp] in *; try reflexivity; try discriminate; try lia.

Lemma SFleb_trans a b c : SFleb a b = true -> SFleb b c = true -> SFleb a c = true.
Proof. sf_destruct; intros; sf_compare. Qed.

Lemma SFleb_ltb_trans a b c : SFleb a b = true -> SFltb b c = true -> SFltb a c = true.
Proof. sf_destruct; intros; sf_compare. Qed.

Lemma SFltb_leb_trans a b c : SFltb a b = true -> SFleb b c = true -> SFltb a c = true.
Proof. sf_destruct; intros; sf_compare. Qed.

Lemma SFleb_total a b :
  a <> S754_nan -> b <> S754_nan -> SFleb a b = false -> SFltb b a = true.
Proof. sf_destruct; intros; try congruence; sf_compare. Qed.

Lemma SFltb_not_leb a b : SFltb a b = true -> SFleb b a = false.
Proof. sf_destruct; intros; sf_compare. Qed.

Lemma SFltb_leb a b : SFltb a b = true -> SFleb a b = true.
Proof. sf_destruct; intros; sf_compare. Qed.

Lemma SFleb_not_nan a b : SFleb a b = true -> a <> S754_nan /\ b <> S754_nan.
Proof. sf_destruct; intros; try discriminate; split; discriminate. Qed.

Lemma SFltb_not_nan a b : SFltb a b = true -> a <> S754_nan /\ b <> S754_nan.
Proof. sf_destruct; intros; try discriminate; split; discriminate. Qed.

Lemma SFeqb_refl a : a <> S754_nan -> SFeqb a a = true.
Proof. sf_destruct; intros; try congruence; sf_compare. Qed.

(** The comparisons of JavaScript numbers: [<=] is transitive, mixes
    with [<], and is total on the numbers that are not NaN. *)
Lemma leb_trans x y z : (x <=? y) = true -> (y <=? z) = true -> (x <=? z) = true.
Proof. rewrite !FloatAxioms.leb_spec. apply SFleb_trans. Qed.

Lemma leb_ltb_trans x y z : (x <=? y) = true -> (y <? z) = true -> (x <? z) = true.
Proof. rewrite FloatAxioms.leb_spec, !FloatAxioms.ltb_spec. apply SFleb_ltb_trans. Qed.

Lemma ltb_leb_trans x y z : (x <? y) = true -> (y <=? z) = true -> (x <? z) = true.
Proof. rewrite FloatAxioms.leb_spec, !FloatAxioms.ltb_spec. apply SFltb_leb_trans. Qed.

Lemma ltb_not_leb x y : (x <? y) = true -> (y <=? x) = false.
Proof. rewrite FloatAxioms.leb_spec, FloatAxioms.ltb_spec. apply SFltb_not_leb. Qed.

Lemma ltb_leb x y : (x <? y) = true -> (x <=? y) = true.
Proof. rewrite FloatAxioms.leb_spec, FloatAxioms.ltb_spec. apply SFltb_leb. Qed.

Lemma is_nan_spec x : is_nan x = false <-> Prim2SF x <> S754_nan.
Proof.
  unfold is_nan. rewrite FloatAxioms.eqb_spec. split.
  - intros H E. rewrite E in H. discriminate H.
  - intros H. now rewrite SFeqb_refl.
Qed.

Lemma leb_not_nan x y : (x <=? y) = true -> is_nan x = false /\ is_nan y = false.
Proof. rewrite FloatAxioms.leb_spec, !is_nan_spec. apply SFleb_not_nan. Qed.

Lemma ltb_not_nan x y : (x <? y) = true -> is_nan x = false /\ is_nan y = false.
Proof. rewrite FloatAxioms.ltb_spec, !is_nan_spec. apply SFltb_not_nan. Qed.

Lemma leb_total x y :
  is_nan x = false -> is_nan y = false -> (x <=? y) = false -> (y <? x) = true.
Proof.
  rewrite FloatAxioms.leb_spec, FloatAxioms.ltb_spec, !is_nan_spec. apply SFleb_total.
Qed.

Lemma ltb_total x y :
  is_nan x = false -> is_nan y = false -> (x <? y) = false -> (y <=? x) = true.
Proof.
  intros Hx Hy H. destruct (y <=? x) eqn:E; [reflexivity |].
  pose proof (leb_total y x Hy Hx E). congruence.
Qed.

(** ** The regions of detection *)

Lemma geographic_not_projected x lo hi :
  inside (-180) 180 x -> (200000 <=? lo) = true -> ~ inside lo hi x.
Proof.
  intros [_ Hx] Hlo [Hl _].
  pose proof (leb_trans _ _ _ (leb_trans _ _ _ Hlo Hl) Hx) as H. discriminate H.
Qed.

Lemma lambert_not_utm y :
  inside 0 500000 y -> ~ inside 1400000 1900000 y.
Proof. intros [_ Hy] [Hl _]. pose proof (leb_trans _ _ _ Hl Hy) as H. discriminate H. Qed.

(** The part of the UTM 27N rectangle that UTM 28N leaves. *)
Lemma utm27_only_spec x :
  inside 400000 900000 x /\ ~ inside 200000 800000 x <->
  (800000 <? x) = true /\ (x <=? 900000) = true.
Proof.
  split.
  - intros [[Hlo Hhi] Hn]. split; [| exact Hhi].
    destruct (leb_not_nan _ _ Hlo) as [_ Hx].
    apply leb_total; [exact Hx | reflexivity |].
    destruct (x <=? 800000) eqn:E; [| reflexivity].
    exfalso. apply Hn. split; [| exact E].
    apply (leb_trans _ 400000); [reflexivity | exact Hlo].
  - intros [Hlt Hhi]. split.
    + split; [| exact Hhi].
      apply (leb_trans _ 800000); [reflexivity | now apply ltb_leb].
    + intros [_ H]. apply ltb_not_leb in Hlt. congruence.
Qed.

(** X1. Each identifier has its own region: geographic and Lambert are
    returned exactly on their rectangles, UTM 27N exactly on the part of
    its rectangle that lies east of x = 800000, and UTM 28N on its
    rectangle and everywhere outside the four regions. The order of the
    tests only matters between the two UTM rectangles. *)
Theorem detectCoordinateSystem_regions (x y : float) :
  let geographic := inside (-180) 180 x /\ inside (-90) 90 y in
  let utm28 := inside 200000 800000 x /\ inside 1400000 1900000 y in
  let utm27 := ((800000 <? x) = true /\ (x <=? 900000) = true) /\
               inside 1400000 1900000 y in
  let lambert := inside 200000 600000 x /\ inside 0 500000 y in
  (detectCoordinateSystem x y = "EPSG:4326" <-> geographic) /\
  (detectCoordinateSystem x y = "EPSG:32627" <-> utm27) /\
  (detectCoordinateSystem x y = "EPSG:2147" <-> lambert) /\
  (detectCoordinateSystem x y = "EPSG:32628" <->
   utm28 \/ ~ (geographic \/ utm28 \/ utm27 \/ lambert)).
Proof.
  cbv zeta.
  pose proof (utm27_only_spec x) as H7.
  assert (HG8 : inside (-180) 180 x -> ~ inside 200000 800000 x)
    by (intros H; now apply geographic_not_projected).
  assert (HG7 : inside (-180) 180 x -> ~ inside 400000 900000 x)
    by (intros H; now apply geographic_not_projected).
  assert (HGL : inside (-180) 180 x -> ~ inside 200000 600000 x)
    by (intros H; now apply geographic_not_projected).
  pose proof (lambert_not_utm y) as HL.
  unfold detectCoordinateSystem.
  destruct (between (-180) 180 x && between (-90) 90 y) eqn:E1;
    [apply range_test in E1 | apply range_test_false in E1];
  (destruct (between 200000 800000 x && between 1400000 1900000 y) eqn:E2;
    [apply range_test in E2 | apply range_test_false in E2]);
  (destruct (between 400000 900000 x && between 1400000 1900000 y) eqn:E3;
    [apply range_test in E3 | apply range_test_false in E3]);
  (destruct (between 200000 600000 x && between 0 500000 y) eqn:E4;
    [apply range_test in E4 | apply range_test_false in E4]);
  unfold inside in *; repeat split; intros; try discriminate; try tauto.
Qed.

(** A point of the Kedougou region, east of x = 800000. *)
Lemma detectCoordinateSystem_regions_witness :
  detectCoordinateSystem 850000 1400000 = "EPSG:32627".
Proof.
  apply (proj1 (proj2 (detectCoordinateSystem_regions 850000 1400000))).
  repeat split.
Defined.

(** ** The colours of the fill level *)

Lemma eqb_zero l : (l =? 0) = true -> exists s, Prim2SF l = S754_zero s.
Proof.
  rewrite FloatAxioms.eqb_spec.
  set (c0 := Prim2SF 0). vm_compute in c0. subst c0.
  destruct (Prim2SF l) as [[] | [] | | [] m e]; cbn; try discriminate; eauto.
Qed.

Lemma getFillLevelColor_number (l : float) :
  (getFillLevelColor (Some l) = "#EF4444" <-> (70 <=? l) = true) /\
  (getFillLevelColor (Some l) = "#F59E0B" <-> (30 <=? l) = true /\ (l <? 70) = true) /\
  (getFillLevelColor (Some l) = "#10B981" <-> (l <? 30) = true /\ (l =? 0) = false) /\
  (getFillLevelColor (Some l) = "#E5E7EB" <-> (l =? 0) = true \/ is_nan l = true).
Proof.
  unfold getFillLevelColor, number_truthy.
  destruct (l =? 0) eqn:E0; cbn [negb andb].
  { destruct (eqb_zero l E0) as [s Hs].
    assert (H70 : (70 <=? l) = false)
      by (rewrite FloatAxioms.leb_spec, Hs; reflexivity).
    assert (H30 : (30 <=? l) = false)
      by (rewrite FloatAxioms.leb_spec, Hs; reflexivity).
    rewrite H70, H30.
    repeat split; intros; try discriminate; try reflexivity; intuition congruence. }
  destruct (is_nan l) eqn:En; cbn [negb].
  { assert (H70 : (70 <=? l) = false).
    { destruct (70 <=? l) eqn:E; [| reflexivity].
      apply leb_not_nan in E. destruct E; congruence. }
    assert (H30 : (l <? 30) = false).
    { destruct (l <? 30) eqn:E; [| reflexivity].
      apply ltb_not_nan in E. destruct E; congruence. }
    assert (H30' : (30 <=? l) = false).
    { destruct (30 <=? l) eqn:E; [| reflexivity].
      apply leb_not_nan in E. destruct E; congruence. }
    rewrite H70, H30, H30'.
    repeat split; intros; try discriminate; try reflexivity; intuition congruence. }
  destruct (l <? 30) eqn:E30.
  { assert (H70 : (70 <=? l) = false).
    { destruct (70 <=? l) eqn:E; [| reflexivity].
      pose proof (leb_ltb_trans _ _ _ E E30) as H. discriminate H. }
    rewrite (ltb_not_leb _ _ E30), H70.
    repeat split; intros; try discriminate; try reflexivity; intuition congruence. }
  rewrite (ltb_total l 30 En eq_refl E30).
  destruct (l <? 70) eqn:E70.
  { rewrite (ltb_not_leb _ _ E70).
    repeat split; intros; try discriminate; try reflexivity; intuition congruence. }
  rewrite (ltb_total l 70 En eq_refl E70).
  repeat split; intros; try discriminate; try reflexivity; intuition congruence.
Qed.

(** X2. The colour of a marker tells the band of its fill level: red
    from 70 upwards, orange from 30 to below 70, green below 30 (negative
    levels included) except for 0, and grey exactly when the level is
    absent, zero or NaN. *)
Theorem getFillLevelColor_bands (level : option float) :
  (getFillLevelColor level = "#EF4444" <->
   exists l, level = Some l /\ (70 <=? l) = true) /\
  (getFillLevelColor level = "#F59E0B" <->
   exists l, level = Some l /\ (30 <=? l) = true /\ (l <? 70) = true) /\
  (getFillLevelColor level = "#10B981" <->
   exists l, level = Some l /\ (l <? 30) = true /\ (l =? 0) = false) /\
  (getFillLevelColor level = "#E5E7EB" <->
   level = None \/ exists l, level = Some l /\ ((l =? 0) = true \/ is_nan l = true)).
Proof.
  destruct level as [l |].
  - destruct (getFillLevelColor_number l) as (Hr & Ho & Hg & He).
    rewrite Hr, Ho, Hg, He.
    split; [| split; [| split]].
    + split; [intros H0; exists l; auto | intros (l' & [= <-] & H0); exact H0].
    + split; [intros H0; exists l; auto | intros (l' & [= <-] & H0); exact H0].
    + split; [intros H0; exists l; auto | intros (l' & [= <-] & H0); exact H0].
    + split; [intros H0; right; exists l; auto |].
      intros [H0 | (l' & [= <-] & H0)]; [discriminate H0 | exact H0].
  - cbn [getFillLevelColor].
    split; [| split; [| split]]; split; try discriminate; auto;
      intros (l & H0 & _); discriminate H0.
Qed.

Example getFillLevelColor_samples :
  getFillLevelColor (Some 75%float) = "#EF4444" /\
  getFillLevelColor (Some 45%float) = "#F59E0B" /\
  getFillLevelColor (Some 29.9%float) = "#10B981" /\
  getFillLevelColor (Some 0%float) = "#E5E7EB" /\
  getFillLevelColor (Some (-5)%float) = "#10B981".
Proof. repeat split. Qed.

End FloatOrder.

(* ===================================================================== *)
(** * Properties of the rows *)
(* ===================================================================== *)

Section RowFacts.
Context {rt : Runtime}.

Lemma rowsFrom_imap w tbl features : forall k,
  rowsFrom w tbl features k = imap (fun i f => rowAt w tbl (k + i) f) features.
Proof.
  induction features as [| f rest IH]; intros k; [reflexivity |].
  cbn [rowsFrom imap]. rewrite rowOf_rowAt, Nat.add_0_r. f_equal.
  rewrite IH. apply imap_ext. intros i x _. cbn. f_equal. lia.
Qed.

(** X3. The rows handed to the database are, in the order of the input,
    the rows of the features that convert and whose numeric fields can
    be read; the row of a feature is given field by field by its alias
    lists (the first truthy alias wins, else the default), and the
    default name counts the position of the feature in the input,
    skipped features included. *)
Theorem mapFeatures_rows (w : World) (tbl : table) (features : list jsval) :
  (mapFeatures w tbl features).2 = Normal (omap id (imap (rowAt w tbl) features)).
Proof.
  rewrite mapFeatures_spec. cbn [snd]. unfold nonNull.
  now rewrite rowsFrom_imap.
Qed.

Lemma rows_elem w tbl features row :
  row ∈ nonNull (rowsFrom w tbl features 0) <->
  exists i f, features !! i = Some f /\ rowAt w tbl i f = Some row.
Proof.
  unfold nonNull. rewrite rowsFrom_imap, list_elem_of_omap. split.
  - intros (o & Ho & Hid). cbn in Hid. subst o.
    apply list_elem_of_lookup in Ho as [i Hi].
    rewrite list_lookup_imap in Hi.
    destruct (features !! i) as [f |] eqn:Hf; [| discriminate].
    cbn in Hi. injection Hi as Hi. eauto.
  - intros (i & f & Hf & Hrow). exists (Some row). split; [| reflexivity].
    apply list_elem_of_lookup. exists i. rewrite list_lookup_imap, Hf. cbn.
    now f_equal.
Qed.

Lemma mapFeatures_rows_elem w tbl features rows row :
  (mapFeatures w tbl features).2 = Normal rows -> In row rows ->
  exists i f lon lat sys,
    features !! i = Some f /\ converts f = Some (lon, lat, sys) /\
    rowByAliases w tbl f i lon lat = Normal row.
Proof.
  rewrite mapFeatures_spec. cbn [snd]. intros [= <-] Hin.
  apply list_elem_of_In, rows_elem in Hin as (i & f & Hf & Hrow).
  unfold rowAt in Hrow. destruct (converts f) as [[[lon lat] sys] |] eqn:Hc; [| discriminate].
  destruct (rowByAliases w tbl f i lon lat) as [row' |] eqn:Hb; [| discriminate].
  injection Hrow as <-. exists i, f, lon, lat, sys. repeat split; auto.
Qed.

Lemma Normal_inj {A : Type} (a b : A) : Normal a = Normal b -> a = b.
Proof. now intros [= ->]. Qed.

(** The fields of a row that was built. *)
#[local] Ltac row_fields H :=
  unfold rowByAliases in H;
  repeat match type of H with
  | bind ?c _ = _ =>
      let E := fresh "E" in
      destruct c eqn:E; [cbn [bind] in H | discriminate H]
  end;
  apply Normal_inj in H; subst.

(** X4. Whatever the uploaded file contains, a row has exactly the
    columns of its table, in a fixed order; only a sweeping route row may
    have two more, [latitude] and [longitude]. No property of a feature
    can add, rename or remove a column. *)
Theorem rows_columns (w : World) (tbl : table) (features : list jsval)
    (rows : list record) :
  (mapFeatures w tbl features).2 = Normal rows ->
  Forall (fun row =>
            map fst row = columns tbl \/
            tbl = sweeping_routes /\
            map fst row = columns tbl ++ ["latitude"; "longitude"]) rows.
Proof.
  intros Hrows. apply Forall_forall. intros row Hin.
  apply list_elem_of_In in Hin.
  destruct (mapFeatures_rows_elem _ _ _ _ _ Hrows Hin)
    as (i & f & lon & lat & sys & _ & _ & Hrow).
  destruct tbl; row_fields Hrow; [now left | now left |].
  destruct (number_truthy lon && number_truthy lat); [right | left]; auto.
Qed.



(** X6. The coordinates of a row are those of its conversion. A
    collection point row and an urban furniture row always carry both; a
    sweeping route row carries both or none, and when it carries them
    neither is zero or NaN. *)
Theorem rows_coordinates (w : World) (tbl : table) (features : list jsval)
    (rows : list record) :
  (mapFeatures w tbl features).2 = Normal rows ->
  Forall (fun row =>
            (exists i f lon lat sys,
               features !! i = Some f /\ converts f = Some (lon, lat, sys) /\
               lookup_prop "latitude" row = VNumber lat /\
               lookup_prop "longitude" row = VNumber lon /\
               (tbl = sweeping_routes ->
                number_truthy lon = true /\ number_truthy lat = true)) \/
            (tbl = sweeping_routes /\
             lookup_prop "latitude" row = VUndefined /\
             lookup_prop "longitude" row = VUndefined)) rows.
Proof.
  intros Hrows. apply Forall_forall. intros row Hin.
  apply list_elem_of_In in Hin.
  destruct (mapFeatures_rows_elem _ _ _ _ _ Hrows Hin)
    as (i & f & lon & lat & sys & Hf & Hc & Hrow).
  destruct tbl; row_fields Hrow.
  - left. exists i, f, lon, lat, sys. repeat split; auto; discriminate.
  - left. exists i, f, lon, lat, sys. repeat split; auto; discriminate.
  - destruct (number_truthy lon && number_truthy lat) eqn:Ht.
    + left. exists i, f, lon, lat, sys. apply andb_true_iff in Ht.
      repeat split; auto; tauto.
    + right. repeat split.
Qed.




(** A feature whose properties are an array: [properties.shift] is the
    method of arrays, a truthy value, and it is the [shift] of the
    sweeping route row. *)
Example array_properties_shift (w : World) :
  exists row,
    (mapFeatures w sweeping_routes
       [VObject [("geometry", VObject [("type", VString "Point");
                                       ("coordinates",
                                        VArray [VNumber (-17.44); VNumber 14.69])]);
                 ("properties", VArray [])]]).2 = Normal [row] /\
    lookup_prop "shift" row = VFunction "shift" /\
    lookup_prop "name" row = VString "Élément 1".
Proof. eexists. split; [reflexivity |]. split; reflexivity. Qed.

End RowFacts.

(* ===================================================================== *)
(** * Properties of the statistics *)
(* ===================================================================== *)

Section StatisticsFacts.
Context {rt : Runtime}.

Lemma fold_counts tbl fs : forall st,
  let st' := fold_left (countFeature tbl) fs st in
  success st' = (success st + length (List.filter converted_ok fs))%nat /\
  failed st' =
    (failed st + length (List.filter (fun f => negb (yields_row tbl f)) fs))%nat.
Proof.
  induction fs as [| f rest IH]; intros st; cbv zeta.
  - cbn. split; lia.
  - cbn [fold_left List.filter]. destruct (IH (countFeature tbl st f)) as [IHs IHf].
    rewrite IHs, IHf. unfold yields_row.
    destruct (countFeature_cases tbl st f) as [[Hc ->] | (lon & lat & s & Hc & _ & ->)].
    + assert (Hok : converted_ok f = false) by (unfold converted_ok; now rewrite Hc).
      rewrite Hok. cbn [andb negb success failed failed_incr length]. split; lia.
    + assert (Hok : converted_ok f = true) by (unfold converted_ok; now rewrite Hc).
      rewrite Hok. cbn [andb success failed length].
      destruct (builds tbl f); cbn [negb length]; split; lia.
Qed.

Lemma fold_systems tbl s fs : forall st,
  let st' := fold_left (countFeature tbl) fs st in
  default O (systems st' !! s) = (default O (systems st !! s) + detectedAs s fs)%nat /\
  (systems st' !! s = None <-> systems st !! s = None /\ detectedAs s fs = O).
Proof.
  induction fs as [| f rest IH]; intros st; cbv zeta.
  - cbn. split; [lia | tauto].
  - cbn [fold_left]. destruct (IH (countFeature tbl st f)) as [IH1 IH2].
    rewrite IH1, IH2. clear IH IH1 IH2.
    unfold detectedAs. cbn [List.filter].
    destruct (countFeature_cases tbl st f) as [[Hc ->] | (lon & lat & s' & Hc & _ & ->)].
    { assert (Hk : countedAs s f = false)
        by (unfold countedAs, sourceOf; now rewrite Hc).
      rewrite Hk. cbn [systems failed_incr]. split; [lia | tauto]. }
    assert (Hk : countedAs s f = String.eqb s s')
      by (unfold countedAs, sourceOf; now rewrite Hc).
    rewrite Hk. cbn [systems].
    destruct (String.eqb_spec s s') as [<- | Hne].
    + rewrite lookup_insert_eq. cbn [default length]. unfold id. split; [lia |].
      split; [intros [H _]; discriminate H | intros [_ H]; discriminate H].
    + rewrite lookup_insert_ne by congruence. split; [lia | tauto].
Qed.

Lemma filter_yields tbl fs :
  (length (List.filter (yields_row tbl) fs) +
   length (List.filter (fun f => negb (yields_row tbl f)) fs) = length fs)%nat /\
  (length (List.filter converted_ok fs) =
   length (List.filter (yields_row tbl) fs) +
   length (List.filter (fun f => converted_ok f && negb (builds tbl f)) fs))%nat.
Proof.
  induction fs as [| f rest [IH1 IH2]]; [split; reflexivity |].
  cbn [List.filter length]. unfold yields_row in *.
  destruct (converted_ok f), (builds tbl f); cbn [andb negb length]; split; lia.
Qed.

Lemma rows_yield w tbl fs : forall index,
  length (nonNull (rowsFrom w tbl fs index)) = length (List.filter (yields_row tbl) fs).
Proof.
  induction fs as [| f rest IH]; intros index; [reflexivity |].
  cbn [rowsFrom List.filter]. rewrite nonNull_cons.
  pose proof (rowOf_yields w tbl f index) as H.
  destruct (yields_row tbl f).
  - destruct (proj2 H eq_refl) as [row ->]. cbn [length]. now rewrite IH.
  - destruct (rowOf w tbl f index) as [row |]; [| apply IH].
    assert (E : false = true) by (apply H; eauto). discriminate E.
Qed.

(** X7. The statistics count the features by outcome. [success] is the
    number of features that convert and [failed] the number of those that
    yield no row: those that do not convert, and those that convert but
    whose row cannot be built, which are counted twice. The rows are as
    many as the features that yield one, so that [failed] and the rows
    add up to [total], while [success] and [failed] exceed [total] by the
    number of features counted twice. The entry of [systems] for an
    identifier is the number of features converted from that system, an
    identifier has no entry exactly when no feature was converted from
    it, and the system a feature is converted from is the one detected
    for the pair of numbers at the representative position of its
    geometry. *)
Theorem mapFeatures_counts (w : World) (tbl : table) (features : list jsval) (s : string) :
  let st := (mapFeatures w tbl features).1 in
  total st = length features /\
  success st = length (List.filter converted_ok features) /\
  failed st = length (List.filter (fun f => negb (yields_row tbl f)) features) /\
  (exists rows,
     (mapFeatures w tbl features).2 = Normal rows /\
     length rows = length (List.filter (yields_row tbl) features) /\
     (failed st + length rows = total st)%nat) /\
  (success st + failed st =
   total st +
   length (List.filter (fun f => converted_ok f && negb (builds tbl f)) features))%nat /\
  default O (systems st !! s) = detectedAs s features /\
  (systems st !! s = None <-> detectedAs s features = O) /\
  (forall f, countedAs s f = true ->
     exists geometry x y rest,
       getProp f "geometry" = Normal geometry /\
       representative geometry = VArray (VNumber x :: VNumber y :: rest) /\
       s = detectCoordinateSystem x y).
Proof.
  cbv zeta. rewrite mapFeatures_spec. cbn [fst snd].
  destruct (fold_counts tbl features (initialStats features)) as [Hs Hf].
  destruct (fold_systems tbl s features (initialStats features)) as [Hk Hn].
  destruct (fold_countFeature w tbl features 0%nat (initialStats features))
    as (Ht & _).
  destruct (filter_yields tbl features) as [Hy1 Hy2].
  pose proof (rows_yield w tbl features 0%nat) as Hrows.
  cbn [initialStats total success failed systems] in *.
  rewrite lookup_empty in Hk, Hn. cbn [default] in Hk.
  split; [exact Ht |]. split; [lia |]. split; [lia |].
  split; [eexists; split; [reflexivity |]; split; [exact Hrows | lia] |].
  split; [lia |]. split; [lia |]. split; [tauto |].
  intros f Hc. unfold countedAs, sourceOf in Hc.
  destruct (converts f) as [[[lon lat] [s' |]] |] eqn:E; try discriminate Hc.
  apply String.eqb_eq in Hc. subst s'.
  apply converts_spec in E as (geometry & x & y & rest & Hg & Hr & Hsys & _).
  injection Hsys as ->. exists geometry, x, y, rest. auto.
Qed.

Lemma rowsFrom_app w tbl fs1 fs2 : forall i,
  rowsFrom w tbl (fs1 ++ fs2) i =
  rowsFrom w tbl fs1 i ++ rowsFrom w tbl fs2 (i + length fs1).
Proof.
  induction fs1 as [| f rest IH]; intros i; cbn [app rowsFrom length].
  - now rewrite Nat.add_0_r.
  - rewrite IH. do 3 f_equal. lia.
Qed.

(** X8. Mapping a batch is mapping its first part and then its second
    part, continuing with the statistics and the position where the first
    part ended; the counters of the whole are the sums of the counters of
    the parts. *)
Theorem mapFrom_app (w : World) (tbl : table) (fs1 fs2 : list jsval) (i : nat)
    (st : conversionStats) :
  (exists st1 st2 items1 items2,
     mapFrom w tbl fs1 i st = (st1, Normal items1) /\
     mapFrom w tbl fs2 (i + length fs1) st1 = (st2, Normal items2) /\
     mapFrom w tbl (fs1 ++ fs2) i st = (st2, Normal (items1 ++ items2))) /\
  let whole := (mapFeatures w tbl (fs1 ++ fs2)).1 in
  let part1 := (mapFeatures w tbl fs1).1 in
  let part2 := (mapFeatures w tbl fs2).1 in
  total whole = (total part1 + total part2)%nat /\
  success whole = (success part1 + success part2)%nat /\
  failed whole = (failed part1 + failed part2)%nat.
Proof.
  split.
  - exists (fold_left (countFeature tbl) fs1 st),
           (fold_left (countFeature tbl) fs2 (fold_left (countFeature tbl) fs1 st)),
           (rowsFrom w tbl fs1 i), (rowsFrom w tbl fs2 (i + length fs1)).
    rewrite !mapFrom_spec, fold_left_app, rowsFrom_app. auto.
  - cbv zeta. rewrite !mapFeatures_spec. cbn [fst].
    destruct (fold_counts tbl (fs1 ++ fs2) (initialStats (fs1 ++ fs2))) as [Hs Hf].
    destruct (fold_counts tbl fs1 (initialStats fs1)) as [Hs1 Hf1].
    destruct (fold_counts tbl fs2 (initialStats fs2)) as [Hs2 Hf2].
    destruct (fold_countFeature w tbl (fs1 ++ fs2) 0%nat (initialStats (fs1 ++ fs2)))
      as (Ht & _).
    destruct (fold_countFeature w tbl fs1 0%nat (initialStats fs1)) as (Ht1 & _).
    destruct (fold_countFeature w tbl fs2 0%nat (initialStats fs2)) as (Ht2 & _).
    rewrite Hs, Hf, Hs1, Hf1, Hs2, Hf2, Ht, Ht1, Ht2.
    cbn [initialStats total success failed].
    rewrite !List.filter_app, !length_app. repeat split; lia.
Qed.

End StatisticsFacts.

(* ===================================================================== *)
(** * Properties of the pipeline *)
(* ===================================================================== *)

Section PipelineFacts.
Context {rt : Runtime}.

(** X9. Every identifier that detection can return is registered in the
    proj4 catalogue: the reprojection of a pair always reaches the
    transformation, from the parameter string of the detected system to
    that of WGS84, and never fails on an unknown name. *)
Theorem proj4_detected_registered (x y : float) :
  exists src,
    proj4_defs (detectCoordinateSystem x y) = Some src /\
    proj4 (detectCoordinateSystem x y) "EPSG:4326" (x, y) =
      proj4_transform src "+proj=longlat +datum=WGS84 +no_defs" (x, y) /\
    (detectCoordinateSystem x y <> "EPSG:4326" ->
     src <> "+proj=longlat +datum=WGS84 +no_defs").
Proof.
  unfold proj4.
  destruct (detectCoordinateSystem_catalogue x y) as [H | [H | [H | H]]];
    rewrite H; eexists; (split; [reflexivity |]); (split; [reflexivity |]);
    intros Hne; try congruence; discriminate.
Qed.

Lemma descend_truthy depth c elems :
  descend depth c = VArray elems -> truthy c = true.
Proof.
  destruct depth as [| d]; cbn [descend]; [intros ->; reflexivity |].
  destruct c as [| | b | n | [| ch s] | l | ps | f]; try reflexivity;
    cbn [elem0 Array_isArray]; intros H; discriminate H.
Qed.

(** X10. Extraction and conversion compose: a feature of any of the six
    geometry types whose representative position starts with a pair
    inside the geographic rectangle (an altitude may follow) always
    converts. It is counted as a success under EPSG:4326, and its row is
    the row of the alias lists with the pair unchanged; only when a
    numeric field of the row cannot be read by [Number] is there no row,
    and the feature is then counted as failed as well. *)
Theorem geographic_feature_succeeds (w : World) (tbl : table)
    (fields gprops : list (string * jsval)) (depth : nat) (x y : float)
    (rest : list jsval) (index : nat) (st : conversionStats) :
  lookup_prop "geometry" fields = VObject gprops ->
  nesting (lookup_prop "type" gprops) = Some depth ->
  descend depth (lookup_prop "coordinates" gprops) =
    VArray (VNumber x :: VNumber y :: rest) ->
  inside (-180) 180 x -> inside (-90) 90 y ->
  converts (VObject fields) = Some (x, y, Some "EPSG:4326") /\
  mapFeature w tbl (VObject fields) index st =
    match rowByAliases w tbl (VObject fields) index x y with
    | Normal row =>
        ({| total := total st; success := S (success st); failed := failed st;
            systems := <["EPSG:4326" := S (default O (systems st !! "EPSG:4326"))]>
                         (systems st) |},
         Normal (Some row))
    | Throw _ =>
        ({| total := total st; success := S (success st); failed := S (failed st);
            systems := <["EPSG:4326" := S (default O (systems st !! "EPSG:4326"))]>
                         (systems st) |},
         Normal None)
    end.
Proof.
  intros Hg Hn Hd Hx Hy.
  assert (Hc : converts (VObject fields) = Some (x, y, Some "EPSG:4326")).
  { pose proof (detectCoordinateSystem_geographic x y Hx Hy) as Hgeo.
    apply converts_spec. exists (VObject gprops), x, y, rest.
    split; [cbn [getProp member]; now rewrite Hg |].
    split; [cbn [representative]; now rewrite (descend_truthy _ _ _ Hd), Hn |].
    rewrite Hgeo. split; [reflexivity |]. left. auto. }
  split; [exact Hc |].
  rewrite mapFeature_step, rowOf_rowAt. unfold countFeature, rowAt. rewrite Hc.
  rewrite (rowByAliases_builds w tbl (VObject fields) index x y).
  destruct (rowByAliases w tbl (VObject fields) index x y); reflexivity.
Qed.

(** X13. A feature yields a row exactly when the representative position
    of its geometry is an array that starts with two numbers, either the
    pair is detected as geographic or its projection succeeds and falls
    in the bounding box of Senegal, and the numeric fields of the row can
    be read by [Number]. The row is then the row of the alias lists with
    the pair itself, respectively the projected pair rounded to six
    decimals. Every other feature yields [null]. *)
Theorem mapFeature_accepts (w : World) (tbl : table) (feature : jsval) (index : nat)
    (st : conversionStats) (row : record) :
  (mapFeature w tbl feature index st).2 = Normal (Some row) <->
  exists geometry x y rest lon lat,
    getProp feature "geometry" = Normal geometry /\
    representative geometry = VArray (VNumber x :: VNumber y :: rest) /\
    ((detectCoordinateSystem x y = "EPSG:4326" /\ lon = x /\ lat = y) \/
     (detectCoordinateSystem x y <> "EPSG:4326" /\
      exists lon' lat',
        proj4 (detectCoordinateSystem x y) "EPSG:4326" (x, y) = Normal (lon', lat') /\
        inside (-17.8) (-11.2) lon' /\ inside 12.0 16.8 lat' /\
        lon = StringToNumber (toFixed 6 lon') /\
        lat = StringToNumber (toFixed 6 lat'))) /\
    rowByAliases w tbl feature index lon lat = Normal row.
Proof.
  rewrite mapFeature_step. cbn [snd]. rewrite rowOf_rowAt. unfold rowAt. split.
  - destruct (converts feature) as [[[lon lat] sys] |] eqn:Hc; [| discriminate].
    destruct (rowByAliases w tbl feature index lon lat) as [row' |] eqn:Hb;
      [| discriminate].
    intros [= <-]. apply converts_spec in Hc as (geometry & x & y & rest & Hg & Hr & _ & H).
    exists geometry, x, y, rest, lon, lat. auto.
  - intros (geometry & x & y & rest & lon & lat & Hg & Hr & H & Hb).
    assert (Hc : converts feature = Some (lon, lat, Some (detectCoordinateSystem x y))).
    { apply converts_spec. exists geometry, x, y, rest. auto. }
    now rewrite Hc, Hb.
Qed.

Lemma uploadGeoJSONWithProj4_unfold w geojson tbl features :
  getProp geojson "type" = Normal (VString "FeatureCollection") ->
  getProp geojson "features" = Normal (VArray features) ->
  features <> [] ->
  uploadGeoJSONWithProj4 w geojson tbl =
    let rows := nonNull (rowsFrom w tbl features 0) in
    if (length rows =? 0)%nat then Throw (Error noValidFeature)
    else
      match reply_error (insert w tbl rows) with
      | Some msg => Throw (Error ("Erreur lors de l'insertion en base : " +:+ msg))
      | None =>
          Normal {| data := reply_data (insert w tbl rows); count := length rows;
                    skipped := failed (mapFeatures w tbl features).1;
                    stats := (mapFeatures w tbl features).1 |}
      end.
Proof.
  intros Hty Hfs Hne. unfold uploadGeoJSONWithProj4, try_catch.
  assert (Hobj : negb (truthy geojson) || negb (typeof_object geojson) = false)
    by (destruct geojson; try discriminate Hty; reflexivity).
  rewrite Hobj, Hty, Hfs. cbn [bind type_is String.eqb Ascii.eqb Bool.eqb negb].
  destruct features as [| f rest]; [congruence |]. cbn [length Nat.eqb].
  rewrite mapFeatures_spec. cbn [bind fst].
  destruct (length (nonNull (rowsFrom w tbl (f :: rest) 0)) =? 0)%nat; [reflexivity |].
  destruct (reply_error _); reflexivity.
Qed.

(** X11. The database is consulted once, for the rows mapped from the
    features and the target table. A call returns only when the database
    accepted these rows, with its answer as [data]; when the database
    refuses them the call throws, and the message of the database is in
    the message thrown. *)
Theorem uploadGeoJSONWithProj4_database (w : World) (geojson : jsval) (tbl : table) :
  (forall r,
     uploadGeoJSONWithProj4 w geojson tbl = Normal r ->
     exists features rows,
       getProp geojson "features" = Normal (VArray features) /\
       (mapFeatures w tbl features).2 = Normal rows /\ rows <> [] /\
       reply_error (insert w tbl rows) = None /\
       data r = reply_data (insert w tbl rows) /\
       count r = length rows) /\
  (forall features rows msg,
     getProp geojson "type" = Normal (VString "FeatureCollection") ->
     getProp geojson "features" = Normal (VArray features) ->
     (mapFeatures w tbl features).2 = Normal rows -> rows <> [] ->
     reply_error (insert w tbl rows) = Some msg ->
     uploadGeoJSONWithProj4 w geojson tbl =
       Throw (Error ("Erreur lors de l'insertion en base : " +:+ msg))).
Proof.
  split.
  - intros r Hr.
    destruct (uploadGeoJSONWithProj4_returns w geojson tbl r Hr)
      as (features & Hfs & Hne & _ & Hrows & _).
    assert (Hty : getProp geojson "type" = Normal (VString "FeatureCollection")).
    { revert Hr. unfold uploadGeoJSONWithProj4, try_catch.
      destruct (negb (truthy geojson) || negb (typeof_object geojson)); [discriminate |].
      destruct (getProp geojson "type") as [ty |]; [| discriminate]. cbn [bind].
      destruct ty as [| | | | ty | | |]; cbn [type_is negb]; try discriminate.
      destruct (String.eqb_spec ty "FeatureCollection") as [-> | _];
        [reflexivity | discriminate]. }
    rewrite (uploadGeoJSONWithProj4_unfold w geojson tbl features Hty Hfs Hne) in Hr.
    cbv zeta in Hr. exists features, (nonNull (rowsFrom w tbl features 0)).
    destruct (nonNull (rowsFrom w tbl features 0)) as [| row rows] eqn:E;
      [discriminate Hr |].
    cbn [length Nat.eqb] in Hr.
    destruct (reply_error (insert w tbl (row :: rows))) eqn:Herr; [discriminate Hr |].
    injection Hr as <-. cbn [data count].
    repeat split; auto; discriminate.
  - intros features rows msg Hty Hfs Hrows Hne Herr.
    assert (Hfne : features <> []).
    { intros ->. rewrite mapFeatures_spec in Hrows. cbn in Hrows. congruence. }
    rewrite (uploadGeoJSONWithProj4_unfold w geojson tbl features Hty Hfs Hfne).
    cbv zeta. rewrite mapFeatures_spec in Hrows. cbn [snd] in Hrows.
    injection Hrows as ->.
    destruct rows as [| row rows]; [congruence |]. cbn [length Nat.eqb].
    now rewrite Herr.
Qed.

End PipelineFacts.

(* ===================================================================== *)
(** * The rounding of a reprojected pair *)
(* ===================================================================== *)

Section RoundingFacts.
Context {rt : Runtime}.
#[local] Open Scope float_scope.

Lemma digits2_pos_bounds m :
  (2 ^ (Z.pos (digits2_pos m) - 1) <= Z.pos m < 2 ^ Z.pos (digits2_pos m))%Z.
Proof.
  induction m as [p IH | p IH |]; cbn [digits2_pos]; [| | cbn; lia];
    rewrite Pos2Z.inj_succ;
    replace (Z.succ (Z.pos (digits2_pos p)) - 1)%Z with (Z.succ (Z.pos (digits2_pos p) - 1))%Z
      by lia;
    rewrite !Z.pow_succ_r by lia; lia.
Qed.

(** A number between two numbers of the same sign whose exponents are
    -49 and -48 has one of these exponents and a full mantissa. *)
Lemma band_finite (v : float) (s : bool) (mlo mhi : positive) (lo hi : float) :
  Prim2SF lo = S754_finite s mlo (if s then -48 else -49)%Z ->
  Prim2SF hi = S754_finite s mhi (if s then -49 else -48)%Z ->
  inside lo hi v ->
  exists m e,
    Prim2SF v = S754_finite s m e /\
    (2 ^ 52 <= Z.pos m < 2 ^ 53)%Z /\
    ((e = -48 /\ if s then Z.pos m <= Z.pos mlo else Z.pos m <= Z.pos mhi)%Z \/
     (e = -49 /\ if s then Z.pos mhi <= Z.pos m else Z.pos mlo <= Z.pos m)%Z).
Proof.
  intros Hlo Hhi [H1 H2]. rewrite FloatAxioms.leb_spec in H1, H2.
  rewrite Hlo in H1. rewrite Hhi in H2.
  pose proof (Prim2SF_valid v) as Hv.
  destruct (Prim2SF v) as [[] | [] | | s' m e]; destruct s;
    cbn [SFleb SFcompare] in H1, H2; try discriminate.
  all: destruct s'; try discriminate; exists m, e; (split; [reflexivity |]).
  all: cbn [valid_binary SpecFloat.valid_binary bounded canonical_mantissa] in Hv.
  all: unfold valid_binary, SpecFloat.valid_binary, bounded, canonical_mantissa, fexp in Hv.
  all: apply andb_true_iff in Hv as [Hc _]; apply Z.eqb_eq in Hc.
  all: pose proof (digits2_pos_bounds m) as Hd.
  all: change (Pos.compare_cont Eq) with Pos.compare in H1, H2.
  all: repeat match goal with
       | H : context [Z.compare ?a ?b] |- _ => destruct (Z.compare_spec a b)
       end;
    try discriminate H1; try discriminate H2; try lia.
  all: assert (Hdig : Z.pos (digits2_pos m) = 53%Z)
    by (unfold prec, emax, SpecFloat.emin in Hc; lia).
  all: rewrite Hdig in Hd; change (53 - 1)%Z with 52%Z in Hd.
  all: split; [exact Hd |].
  all: try (left; split; [lia |];
            match type of H1 with
            | context [Pos.compare ?a ?b] => destruct (Pos.compare_spec a b)
            end; try discriminate H1; lia).
  all: try (left; split; [lia |];
            match type of H2 with
            | context [Pos.compare ?a ?b] => destruct (Pos.compare_spec a b)
            end; try discriminate H2; lia).
  all: try (right; split; [lia |];
            match type of H1 with
            | context [Pos.compare ?a ?b] => destruct (Pos.compare_spec a b)
            end; try discriminate H1; lia).
  all: try (right; split; [lia |];
            match type of H2 with
            | context [Pos.compare ?a ?b] => destruct (Pos.compare_spec a b)
            end; try discriminate H2; lia).
Qed.

Lemma micro_band (m : positive) (e mlo mhi nlo nhi : Z) :
  (2 ^ 52 <= Z.pos m < 2 ^ 53)%Z ->
  ((e = -48 /\ Z.pos m <= mhi) \/ (e = -49 /\ mlo <= Z.pos m))%Z ->
  (nlo <= (2 * (mlo * 1000000) + 2 ^ 49) / (2 * 2 ^ 49))%Z ->
  (nlo <= 16000000)%Z ->
  ((2 * (mhi * 1000000) + 2 ^ 48) / (2 * 2 ^ 48) <= nhi)%Z ->
  (16000000 <= nhi)%Z ->
  (nlo <= scaled_round 6 m e <= nhi)%Z /\
  at_least_1e21 m e = false /\
  nearest_micro m e (scaled_round 6 m e).
Proof.
  intros Hm He Hlo Hlo' Hhi Hhi'.
  assert (Hneg : (e < 0)%Z) by lia.
  split; [| split].
  - unfold scaled_round. change (10 ^ Z.of_nat 6)%Z with 1000000%Z.
    destruct He as [[-> Hle] | [-> Hge]]; cbn [Z.leb Z.compare Z.opp].
    + split.
      * transitivity 16000000%Z; [exact Hlo' |].
        apply Z.div_le_lower_bound; [reflexivity |].
        change (2 ^ 52)%Z with 4503599627370496%Z in Hm.
        change (2 ^ (- (-48)))%Z with 281474976710656%Z. lia.
      * etransitivity; [| exact Hhi].
        apply Z.div_le_mono; [reflexivity | lia].
    + split.
      * etransitivity; [exact Hlo |].
        apply Z.div_le_mono; [reflexivity | lia].
      * transitivity 16000000%Z; [| exact Hhi'].
        apply Z.lt_succ_r, Z.div_lt_upper_bound; [reflexivity |].
        change (2 ^ 53)%Z with 9007199254740992%Z in Hm.
        change (2 ^ (- (-49)))%Z with 562949953421312%Z. lia.
  - unfold at_least_1e21.
    destruct He as [[-> _] | [-> _]]; cbn [Z.leb Z.compare Z.opp];
      apply Z.leb_gt;
      change (2 ^ 53)%Z with 9007199254740992%Z in Hm;
      [change (10 ^ 21 * 2 ^ (- (-48)))%Z
         with 281474976710656000000000000000000000%Z
      | change (10 ^ 21 * 2 ^ (- (-49)))%Z
         with 562949953421312000000000000000000000%Z]; lia.
  - split; [exact Hneg |].
    now apply (scaled_round_nearest 6 m e).
Qed.

(** X12. On the reprojected path the pair returned is the pair of the
    projection rounded to micro-degrees: the projected longitude is a
    negative number [- m * 2^e] and the longitude returned is the binary64
    quotient [- n / 1000000], where [n] is the integer nearest to
    [m * 2^e * 10^6] and lies between 11200000 and 17800000; likewise the
    latitude returned is [n' / 1000000] with [n'] between 12000000 and
    16800000. *)
Theorem convertCoordinates_micro_degrees (x y : float) (rest : list jsval)
    (src : string) (lon lat : float) :
  detectCoordinateSystem x y <> "EPSG:4326" ->
  proj4_defs (detectCoordinateSystem x y) = Some src ->
  proj4_transform src "+proj=longlat +datum=WGS84 +no_defs" (x, y) = Normal (lon, lat) ->
  inside (-17.8) (-11.2) lon -> inside 12.0 16.8 lat ->
  exists (m m' : positive) (e e' n n' : Z),
    Prim2SF lon = S754_finite true m e /\ nearest_micro m e n /\
    (11200000 <= n <= 17800000)%Z /\
    Prim2SF lat = S754_finite false m' e' /\ nearest_micro m' e' n' /\
    (12000000 <= n' <= 16800000)%Z /\
    convertCoordinates (VArray (VNumber x :: VNumber y :: rest)) =
      Normal {| longitude := Some (- (float_of_N (Z.to_N n) / 1000000));
                latitude := Some (float_of_N (Z.to_N n') / 1000000);
                sourceSystem := Some (detectCoordinateSystem x y);
                error := None |}.
Proof.
  intros Hgeo Hsrc Hproj Hlon Hlat.
  assert (Prim2SF (-17.8) = S754_finite true 5010254585449677 (-48)) as Hw
    by (vm_compute; reflexivity).
  assert (Prim2SF (-11.2) = S754_finite true 6305039478318694 (-49)) as He
    by (vm_compute; reflexivity).
  assert (Prim2SF 12.0 = S754_finite false 6755399441055744 (-49)) as Hs
    by (vm_compute; reflexivity).
  assert (Prim2SF 16.8 = S754_finite false 4728779608739021 (-48)) as Hn0
    by (vm_compute; reflexivity).
  destruct (band_finite lon true _ _ _ _ Hw He Hlon)
    as (m & e & Hm & Hrange & Hband).
  destruct (band_finite lat false _ _ _ _ Hs Hn0 Hlat)
    as (m' & e' & Hm' & Hrange' & Hband').
  cbv iota in Hband, Hband'. clear Hw He Hs Hn0.
  destruct (micro_band m e 6305039478318694 5010254585449677 11200000 17800000
              Hrange Hband) as (Hn & Hbig & Hnear);
    [vm_compute; discriminate.. |].
  destruct (micro_band m' e' 6755399441055744 4728779608739021 12000000 16800000
              Hrange' Hband') as (Hn' & Hbig' & Hnear');
    [vm_compute; discriminate.. |].
  exists m, m', e, e', (scaled_round 6 m e), (scaled_round 6 m' e').
  repeat (split; [assumption || lia |]).
  cbn [convertCoordinates]. rewrite (reproject_projected _ _ Hgeo).
  unfold proj4. rewrite Hsrc. cbn [proj4_defs String.eqb Ascii.eqb Bool.eqb].
  rewrite Hproj. cbn [bind try_catch fst snd].
  rewrite (proj2 (within_inside lon lat) (conj Hlon Hlat)).
  rewrite (Number_toFixed 6 lon true m e Hm) by (try assumption; lia).
  rewrite (Number_toFixed 6 lat false m' e' Hm') by (try assumption; lia).
  reflexivity.
Qed.

End RoundingFacts.

(** With the example host: the longitude -16.8589434567 is returned as
    -16858943 / 1000000 and the latitude 14.7380128912 as
    14738013 / 1000000. *)
Lemma convertCoordinates_micro_degrees_witness :
  exists (m m' : positive) (e e' n n' : Z),
    Prim2SF (-16.8589434567)%float = S754_finite true m e /\ nearest_micro m e n /\
    (11200000 <= n <= 17800000)%Z /\
    Prim2SF 14.7380128912%float = S754_finite false m' e' /\ nearest_micro m' e' n' /\
    (12000000 <= n' <= 16800000)%Z /\
    @convertCoordinates exampleRuntime (VArray [VNumber 300000; VNumber 1630000]) =
      Normal {| longitude := Some (- (float_of_N (Z.to_N n) / 1000000))%float;
                latitude := Some (float_of_N (Z.to_N n') / 1000000)%float;
                sourceSystem := Some (detectCoordinateSystem 300000 1630000);
                error := None |}.
Proof.
  refine (@convertCoordinates_micro_degrees exampleRuntime 300000 1630000 []
            "+proj=utm +zone=28 +datum=WGS84 +units=m +no_defs"
            (-16.8589434567) 14.7380128912 _ _ _ _ _).
  - vm_compute. discriminate.
  - reflexivity.
  - reflexivity.
  - split; reflexivity.
  - split; reflexivity.
Defined.

(* ===================================================================== *)
(** * The row properties on an upload of two features *)
(* ===================================================================== *)

(** A point of Dakar named in its properties, followed by a feature that
    is skipped. *)
Lemma rows_columns_witness :
  Forall (fun row =>
            map fst row = columns urban_furniture \/
            urban_furniture = sweeping_routes /\
            map fst row = columns urban_furniture ++ ["latitude"; "longitude"])
    (nonNull (@rowsFrom exampleRuntime (exampleWorld "2024-01-01T00:00:00.000Z")
                urban_furniture
                [pointFeature (-17.44) 14.69 [("nom", VString "Banc")];
                 malformedFeature] 0)).
Proof.
  apply (@rows_columns exampleRuntime (exampleWorld "2024-01-01T00:00:00.000Z")
           urban_furniture
           [pointFeature (-17.44) 14.69 [("nom", VString "Banc")]; malformedFeature]).
  vm_compute. reflexivity.
Defined.


Lemma rows_coordinates_witness :
  Forall (fun row =>
            (exists i f lon lat sys,
               [pointFeature 300000 1630000 []; pointFeature 0 45 []] !! i = Some f /\
               @converts exampleRuntime f = Some (lon, lat, sys) /\
               lookup_prop "latitude" row = VNumber lat /\
               lookup_prop "longitude" row = VNumber lon /\
               (sweeping_routes = sweeping_routes ->
                number_truthy lon = true /\ number_truthy lat = true)) \/
            (sweeping_routes = sweeping_routes /\
             lookup_prop "latitude" row = VUndefined /\
             lookup_prop "longitude" row = VUndefined))
    (nonNull (@rowsFrom exampleRuntime (exampleWorld "2024-01-01T00:00:00.000Z")
                sweeping_routes
                [pointFeature 300000 1630000 []; pointFeature 0 45 []] 0)).
Proof.
  apply (@rows_coordinates exampleRuntime (exampleWorld "2024-01-01T00:00:00.000Z")
           sweeping_routes [pointFeature 300000 1630000 []; pointFeature 0 45 []]).
  vm_compute. reflexivity.
Defined.

(** A point of Dakar given in degrees, with an altitude. *)
Lemma geographic_feature_succeeds_witness :
  @converts exampleRuntime
    (VObject [("type", VString "Feature");
              ("geometry",
               VObject [("type", VString "Point");
                        ("coordinates",
                         VArray [VNumber (-17.44); VNumber 14.69; VNumber 12])])]) =
    Some ((-17.44)%float, 14.69%float, Some "EPSG:4326") /\
  @mapFeature exampleRuntime (exampleWorld "2024-01-01T00:00:00.000Z") collection_points
    (VObject [("type", VString "Feature");
              ("geometry",
               VObject [("type", VString "Point");
                        ("coordinates",
                         VArray [VNumber (-17.44); VNumber 14.69; VNumber 12])])])
    0 (initialStats []) =
    ({| total := 0; success := 1; failed := 0;
        systems := <["EPSG:4326" := 1%nat]> ∅ |},
     Normal (Some [("latitude", VNumber 14.69); ("longitude", VNumber (-17.44));
                   ("commune_id", VNull); ("name", VString "Élément 1");
                   ("type", VString "bin"); ("capacity_kg", VNumber 0);
                   ("waste_type", VString "general"); ("status", VString "active")])).
Proof.
  refine (@geographic_feature_succeeds exampleRuntime
            (exampleWorld "2024-01-01T00:00:00.000Z") collection_points
            _ [("type", VString "Point");
               ("coordinates", VArray [VNumber (-17.44); VNumber 14.69; VNumber 12])]
            0 (-17.44) 14.69 [VNumber 12] 0 (initialStats []) _ _ _ _ _).
  - reflexivity.
  - reflexivity.
  - reflexivity.
  - split; reflexivity.
  - split; reflexivity.
Defined.

